(** * srl-zoo: the supervised baseline and the forward/inverse/reward heads

    A shallow embedding of [baselines/supervised.py] and
    [models/forward_inverse.py], and the properties of the specification
    checked against it.

    Conventions of the embedding:
    - a Python exception is a value of [exn]; code that may raise returns a
      [result];
    - a Python float is a [float]: an exact rational, or one of the three
      special values.  Rounding of the finite values is not modelled;
    - a tensor of shape [B, w] is a list of [B] rows, each a list of [w]
      entries; the entries range over a type with the ring operations;
    - the files of the experiment folder are a finite map from paths to the
      saved parameter dictionaries. *)

From Stdlib Require Import ZArith QArith Qround Lia.
From stdpp Require Import gmap strings list fin_maps.

Local Open Scope string_scope.
Local Open Scope list_scope.

(* ===================================================================== *)
(** * Part I: definitions                                                 *)
(* ===================================================================== *)

(** ** Exceptions *)

Inductive exn : Type :=
  | ValueError (msg : string)
  | TypeError (msg : string)
  | AttributeError (attr : string)
  | RuntimeError (msg : string)
  | ZeroDivisionError
  | FileNotFoundError (path : string).

Inductive result (A : Type) : Type :=
  | Ok (a : A)
  | Raise (e : exn).

Arguments Ok {A} a.
Arguments Raise {A} e.

Definition rbind {A B : Type} (r : result A) (k : A -> result B) : result B :=
  match r with
  | Ok a => k a
  | Raise e => Raise e
  end.

Notation "'do' x <- r ; k" := (rbind r (fun x => k))
  (at level 10, x name, r at level 100, k at level 200,
   format "'[v' 'do'  x  <-  r ; '/' k ']'").

Definition raises {A : Type} (r : result A) : Prop :=
  match r with Ok _ => False | Raise _ => True end.

(** A [for] loop whose body may raise: the first exception leaves the loop. *)
Fixpoint for_each {S X : Type} (body : S -> X -> result S) (xs : list X) (s : S)
  : result S :=
  match xs with
  | [] => Ok s
  | x :: xs' => do s' <- body s x; for_each body xs' s'
  end.

(** The states after each completed pass of such a loop, in order. *)
Fixpoint iterates {S X : Type} (body : S -> X -> result S) (xs : list X) (s : S)
  : list S :=
  match xs with
  | [] => []
  | x :: xs' =>
      match body s x with
      | Ok s' => s' :: iterates body xs' s'
      | Raise _ => []
      end
  end.

(** ** Python floats *)

Inductive float : Type :=
  | Finite (q : Q)
  | PosInf
  | NegInf
  | NaN.

(** [x < y] on floats: false as soon as one side is NaN. *)
Definition flt (x y : float) : bool :=
  match x, y with
  | NaN, _ | _, NaN => false
  | Finite a, Finite b => match (a ?= b)%Q with Lt => true | _ => false end
  | Finite _, PosInf => true
  | NegInf, Finite _ => true
  | NegInf, PosInf => true
  | _, _ => false
  end.

Definition fadd (x y : float) : float :=
  match x, y with
  | NaN, _ | _, NaN => NaN
  | Finite a, Finite b => Finite (a + b)
  | PosInf, NegInf | NegInf, PosInf => NaN
  | PosInf, _ | _, PosInf => PosInf
  | NegInf, _ | _, NegInf => NegInf
  end.

(** [x / n] for an integer [n >= 0], under [from __future__ import division]. *)
Definition fdiv_len (x : float) (n : nat) : result float :=
  match n with
  | O => Raise ZeroDivisionError
  | S _ =>
      Ok match x with
         | Finite a => Finite (a / inject_Z (Z.of_nat n))
         | other => other
         end
  end.

Definition is_finite (x : float) : bool :=
  match x with Finite _ => true | _ => false end.

(** [int(x)] on an exact rational: truncation towards zero. *)
Definition py_int (q : Q) : Z := Z.quot (Qnum q) (Z.pos (Qden q)).

(** [round(x)] on an exact rational, ties to the even integer. *)
Definition py_round (q : Q) : Z :=
  let f := Qfloor q in
  match ((q - inject_Z f) ?= (1 # 2))%Q with
  | Lt => f
  | Gt => (f + 1)%Z
  | Eq => if Z.even f then f else (f + 1)%Z
  end.

(** ** Python slices and batches *)

(** [row[:k]], with Python's reading of a negative bound. *)
Definition slice_to {A : Type} (k : Z) (row : list A) : list A :=
  if (0 <=? k)%Z then take (Z.to_nat k) row
  else take (length row - Z.to_nat (- k)) row.

(** The consecutive minibatches of [batch_size] elements; there are
    [ceil(len / batch_size)] of them. *)
Definition n_batches (len batch_size : nat) : nat :=
  (len + batch_size - 1) / batch_size.

Definition minibatches {A : Type} (batch_size : nat) (l : list A) : list (list A) :=
  (fun b => take batch_size (drop (b * batch_size) l))
    <$> seq 0 (n_batches (length l) batch_size).

(* --------------------------------------------------------------------- *)
(** ** baselines/supervised.py                                            *)
(* --------------------------------------------------------------------- *)

(** What the trainer uses of the numerical libraries and of the sibling
    modules.  The images and their paths stay behind [forward] and
    [train_step]: a sample is known by its index. *)
Class Backend : Type := {
  (** a parameter dictionary ([state_dict]) and the optimizer's moments *)
  params : Type;
  opt_state : Type;
  (** one state vector: a row of [true_states] or of the prediction *)
  row : Type;
  (** [ConvolutionalNetwork(state_dim, cuda)], [DenseNetwork(INPUT_DIM, state_dim)] *)
  ConvolutionalNetwork : Z -> bool -> params;
  DenseNetwork : Z -> params;
  (** [model.cuda()] *)
  to_cuda : params -> params;
  (** [th.optim.Adam(learnable_params, lr)] *)
  Adam : params -> Q -> opt_state;
  (** the network in evaluation mode on the image of one sample *)
  forward : params -> nat -> row;
  (** lines 99-103: prediction, [zero_grad], loss, [backward], [step] on
      one minibatch of (sample, target) pairs *)
  train_step : params * opt_state -> list (nat * row) -> params * opt_state;
  (** lines 117-118: the mean squared error on one validation minibatch *)
  criterion : params -> list (nat * row) -> float;
  (** [numpy.random.RandomState(seed).permutation(n)] *)
  permutation : Z -> nat -> list nat;
  (** the order the training loader draws in a given epoch *)
  shuffle : nat -> list (nat * row) -> list (nat * row)
}.

Module Supervised.
Section WithBackend.
Context `{Backend}.

Definition TEST_BATCH_SIZE : nat := 512.

(** The module globals the command line sets before training. *)
Record globals : Type := {
  N_EPOCHS : nat;
  BATCH_SIZE : nat;
  DISPLAY_PLOTS : bool
}.

Record SupervisedLearning : Type := {
  state_dim : Z;
  batch_size : nat;
  seed : Z;
  cuda : bool;
  model : params;
  optimizer : opt_state;
  log_folder : string
}.

(** [SupervisedLearning.__init__].  The base class keeps [state_dim], the
    global [BATCH_SIZE], [seed] and [cuda]. *)
Definition init (g : globals) (state_dim : Z) (model_type : string)
    (log_folder : string) (seed : Z) (learning_rate : Q) (cuda : bool)
  : result SupervisedLearning :=
  do model <-
    (if String.eqb model_type "resnet" then Ok (ConvolutionalNetwork state_dim cuda)
     else if String.eqb model_type "mlp" then Ok (DenseNetwork state_dim)
     else Raise (ValueError ("Unknown model: " +:+ model_type)));
  let model := if cuda then to_cuda model else model in
  Ok {| state_dim := state_dim; batch_size := BATCH_SIZE g; seed := seed;
        cuda := cuda; model := model; optimizer := Adam model learning_rate;
        log_folder := log_folder |}.

(** scikit-learn's [train_test_split(x, y, test_size=..., random_state=...)],
    the library routine called at line 73.  With a fractional [test_size]
    and no [train_size] it takes [n_test = ceil(test_size * n_samples)] and
    [n_train = n_samples - n_test], draws one permutation of the sample
    positions from the seed, and gives the first [n_test] positions to the
    test part and the next [n_train] to the train part. *)
Definition n_test_of (test_size : Q) (n_samples : nat) : nat :=
  Z.to_nat (Qceiling (test_size * inject_Z (Z.of_nat n_samples))).

Definition safe_indexing {A : Type} (a : list A) (ind : list nat) : list A :=
  omap (fun i => a !! i) ind.

Definition train_test_split {A B : Type} (x : list A) (y : list B)
    (test_size : Q) (random_state : Z) : list A * list A * list B * list B :=
  let n_samples := length x in
  let n_test := n_test_of test_size n_samples in
  let n_train := n_samples - n_test in
  let perm := permutation random_state n_samples in
  let ind_test := take n_test perm in
  let ind_train := take n_train (drop n_test perm) in
  (safe_indexing x ind_train, safe_indexing x ind_test,
   safe_indexing y ind_train, safe_indexing y ind_test).

(** Modelled from the spec: [preprocessing.data_loader.SupervisedDataLoader]
    is missing.  It holds parallel sample indices and targets and yields
    them in successive minibatches, [ceil(N / batch_size)] of them; only a
    training loader reorders its samples. *)
Record SupervisedDataLoader : Type := {
  samples : list (nat * row);
  loader_batch_size : nat;
  no_targets : bool;
  is_training : bool
}.

Definition new_loader (x : list nat) (y : list row) (bs : nat)
    (no_targets is_training : bool) : SupervisedDataLoader :=
  {| samples := zip x y; loader_batch_size := bs;
     no_targets := no_targets; is_training := is_training |}.

Definition loader_len (d : SupervisedDataLoader) : nat :=
  n_batches (length (samples d)) (loader_batch_size d).

Definition batches (d : SupervisedDataLoader) : list (list (nat * row)) :=
  minibatches (loader_batch_size d) (samples d).

Definition resetAndShuffle (epoch : nat) (d : SupervisedDataLoader)
  : SupervisedDataLoader :=
  if is_training d then
    {| samples := shuffle epoch (samples d);
       loader_batch_size := loader_batch_size d;
       no_targets := no_targets d; is_training := is_training d |}
  else d.

(** Modelled from the spec: [BaseLearner.predStatesWithDataLoader] is
    missing.  It runs the model in evaluation mode over every batch of the
    loader and concatenates the outputs in the loader's sample order. *)
Definition predStatesWithDataLoader (m : params) (d : SupervisedDataLoader)
  : list row :=
  concat ((fun batch : list (nat * row) =>
             (fun s : nat * row => forward m (fst s)) <$> batch) <$> batches d).

(** The state of a run of [learn]: the trainer's model and optimizer, the
    local [best_error], the files written so far, and the figures drawn. *)
Record run : Type := {
  cur_model : params;
  cur_optimizer : opt_state;
  best_error : float;
  disk : gmap string params;
  plotted : list (list row)
}.

Definition best_model_path (log_folder : string) : string :=
  log_folder +:+ "/srl_supervised_model.pth".

(** Lines 110-121: the validation loss of the current model. *)
Definition validation_loss (m : params) (val_loader : SupervisedDataLoader)
  : result float :=
  fdiv_len (foldl (fun acc b => fadd acc (criterion m b)) (Finite 0) (batches val_loader))
           (loader_len val_loader).

(** Lines 91-137: one epoch.  The switches between training and evaluation
    mode are part of [train_step] and [criterion]; the progress bar and the
    printed losses are left out, the figures drawn are kept in [plotted]. *)
Definition epoch_body (g : globals) (path : string)
    (train_loader val_loader data_loader : SupervisedDataLoader)
    (r : run) (epoch : nat) : result run :=
  let train_loader := resetAndShuffle epoch train_loader in
  let '(m, o) := foldl train_step (cur_model r, cur_optimizer r) (batches train_loader) in
  (* train_loss /= len(train_loader) *)
  do _ <- fdiv_len (Finite 0) (loader_len train_loader);
  do val_loss <- validation_loss m val_loader;
  let '(best, files) :=
    if flt val_loss (best_error r)
    then (val_loss, <[path := m]> (disk r))
    else (best_error r, disk r) in
  Ok {| cur_model := m; cur_optimizer := o; best_error := best; disk := files;
        plotted := if DISPLAY_PLOTS g
                   then plotted r ++ [predStatesWithDataLoader m data_loader]
                   else plotted r |}.

(** [th.load(path)] followed by [load_state_dict]. *)
Definition load (files : gmap string params) (path : string) : result params :=
  match files !! path with
  | Some p => Ok p
  | None => Raise (FileNotFoundError path)
  end.

Record outcome : Type := {
  returned : list row;
  final : run
}.

(** Lines 69-80 of [learn]: the index array, the split and the three
    loaders. *)
Definition x_indices (true_states : list row) : list nat :=
  seq 0 (length true_states).

Definition split (self : SupervisedLearning) (true_states : list row)
  : list nat * list nat * list row * list row :=
  train_test_split (x_indices true_states) true_states (33 # 100) (seed self).

Definition train_loader (self : SupervisedLearning) (true_states : list row)
  : SupervisedDataLoader :=
  let '(x_train, _, y_train, _) := split self true_states in
  new_loader x_train y_train (batch_size self) false true.

Definition val_loader (self : SupervisedLearning) (true_states : list row)
  : SupervisedDataLoader :=
  let '(_, x_val, _, y_val) := split self true_states in
  new_loader x_val y_val TEST_BATCH_SIZE false false.

Definition data_loader (true_states : list row) : SupervisedDataLoader :=
  new_loader (x_indices true_states) true_states TEST_BATCH_SIZE true false.

(** Lines 85-86: the run starts with [best_error = np.inf]. *)
Definition start (self : SupervisedLearning) (files : gmap string params) : run :=
  {| cur_model := model self; cur_optimizer := optimizer self;
     best_error := PosInf; disk := files; plotted := [] |}.

Definition epoch (g : globals) (self : SupervisedLearning) (true_states : list row)
  : run -> nat -> result run :=
  epoch_body g (best_model_path (log_folder self))
    (train_loader self true_states) (val_loader self true_states)
    (data_loader true_states).

(** [SupervisedLearning.learn].  [files] is the content of the disk when
    the call starts. *)
Definition learn (g : globals) (self : SupervisedLearning)
    (files : gmap string params) (true_states : list row) : result outcome :=
  do r <- for_each (epoch g self true_states) (seq 0 (N_EPOCHS g)) (start self files);
  do best <- load (disk r) (best_model_path (log_folder self));
  Ok {| returned := predStatesWithDataLoader best (data_loader true_states);
        final := {| cur_model := best; cur_optimizer := cur_optimizer r;
                    best_error := best_error r; disk := disk r;
                    plotted := plotted r |} |}.

(** The validation loss of the model a run has reached. *)
Definition loss_of (self : SupervisedLearning) (true_states : list row) (r : run)
  : result float :=
  validation_loss (cur_model r) (val_loader self true_states).

(** What "the checkpoint of the lowest validation loss" means for the
    runs [runs] reached after the successive epochs: epoch [j] reached
    [rj], no epoch has a validation loss strictly below that of [rj], and
    every earlier epoch that has a loss at all (not NaN) is strictly above
    it. *)
Definition lowest_loss (self : SupervisedLearning) (true_states : list row)
    (runs : list run) (j : nat) (rj : run) : Prop :=
  runs !! j = Some rj /\
  exists vj, loss_of self true_states rj = Ok vj /\
    (forall ri vi, ri ∈ runs -> loss_of self true_states ri = Ok vi ->
       flt vi vj = false) /\
    (forall i ri vi, i < j -> runs !! i = Some ri ->
       loss_of self true_states ri = Ok vi -> vi = NaN \/ flt vj vi = true).

(** The invariant of the epoch loop, over the runs [hist] reached so far
    and the current run [r]. *)
Definition checkpoint_invariant (self : SupervisedLearning) (true_states : list row)
    (files : gmap string params) (hist : list run) (r : run) : Prop :=
  (forall r', r' ∈ hist ->
     exists v, loss_of self true_states r' = Ok v /\ flt v (best_error r) = false) /\
  ((best_error r = PosInf /\ disk r = files) \/
   (exists j rj, lowest_loss self true_states hist j rj /\
      loss_of self true_states rj = Ok (best_error r) /\
      disk r = <[best_model_path (log_folder self) := cur_model rj]> files)).

End WithBackend.
End Supervised.

(* --------------------------------------------------------------------- *)
(** ** models/forward_inverse.py                                          *)
(* --------------------------------------------------------------------- *)

(** The entries of the tensors and the values [nn.Linear] draws for the
    weight and bias of a new layer (the layer is named by the attribute it
    is stored in). *)
Class Tensors : Type := {
  num : Type;
  tzero : num;
  tone : num;
  tadd : num -> num -> num;
  tmul : num -> num -> num;
  trelu : num -> num;
  draw_weight : string -> nat -> nat -> num;
  draw_bias : string -> nat -> num
}.

(** A batch: one row per sample. *)
Abbreviation tensor := (list (list num)).

Module ForwardInverse.
Section WithTensors.
Context `{Tensors}.

Definition has_width (w : Z) (t : tensor) : Prop :=
  Forall (fun r => Z.of_nat (length r) = w) t.

Definition has_widthb (w : Z) (t : tensor) : bool :=
  forallb (fun r => (Z.of_nat (length r) =? w)%Z) t.

(** [nn.Linear]: [weight] has shape [out_features, in_features]. *)
Record Linear : Type := {
  in_features : Z;
  out_features : Z;
  weight : nat -> nat -> num;
  bias : nat -> num
}.

Definition nn_Linear (name : string) (n_in n_out : Z) : result Linear :=
  if ((n_in <? 0) || (n_out <? 0))%Z
  then Raise (RuntimeError "negative dimension")
  else Ok {| in_features := n_in; out_features := n_out;
             weight := draw_weight name; bias := draw_bias name |}.

Definition dot (w : nat -> num) (x : list num) : num :=
  foldr tadd tzero (imap (fun i xi => tmul xi (w i)) x).

Definition linear_row (l : Linear) (x : list num) : list num :=
  (fun j => tadd (dot (weight l j) x) (bias l j)) <$> seq 0 (Z.to_nat (out_features l)).

(** Calling a linear layer on a batch: every row must have [in_features]
    entries. *)
Definition linear (l : Linear) (x : tensor) : result tensor :=
  if has_widthb (in_features l) x
  then Ok (linear_row l <$> x)
  else Raise (RuntimeError "size mismatch").

Definition ReLU (x : tensor) : tensor := (fun r : list num => trelu <$> r) <$> x.

(** [torch.cat((a, b), 1)]. *)
Definition cat1 (a b : tensor) : result tensor :=
  if (length a =? length b)%nat
  then Ok (zip_with app a b)
  else Raise (RuntimeError "sizes of tensors must match except in dimension 1").

(** [a + b] for two batches of the same shape.  Broadcasting a dimension
    of size one is not modelled: such operands are rejected here too. *)
Definition tensor_add (a b : tensor) : result tensor :=
  if ((length a =? length b)%nat
      && forallb (fun p => (length (fst p) =? length (snd p))%nat) (zip a b))%bool
  then Ok (zip_with (zip_with tadd) a b)
  else Raise (RuntimeError "the sizes of the tensors must match").

(** [t[:, :k]]. *)
Definition columns_to (k : Z) (t : tensor) : tensor := slice_to k <$> t.

(** Modelled from the spec: [encodeOneHot] of [models/models.py] is missing.
    It turns a column of action indices into one-hot rows of width [n_dim];
    an index outside [0, n_dim) is an error. *)
Definition one_hot_row (n_dim : Z) (a : Z) : list num :=
  (fun j => if (Z.of_nat j =? a)%Z then tone else tzero) <$> seq 0 (Z.to_nat n_dim).

Definition encodeOneHot (action : list Z) (n_dim : Z) : result tensor :=
  if forallb (fun a => (0 <=? a)%Z && (a <? n_dim)%Z) action
  then Ok (one_hot_row n_dim <$> action)
  else Raise (RuntimeError "index out of range").

(** The base encoder stored in [self.nn]; the networks themselves are
    defined in sibling modules. *)
Inductive architecture : Type :=
  | CustomCNN (state_dim : Z)
  | SRLLinear (state_dim : Z) (cuda : bool)
  | SRLDenseNetwork (state_dim : Z) (cuda : bool)
  | SRLConvolutionalNetwork (state_dim : Z) (cuda : bool)
  | CNNAutoEncoder (state_dim : Z).

Record encoder : Type := {
  arch : architecture;
  on_cuda : bool;
  fc_on_cuda : bool
}.

(** The attributes of an [SRLModules] object; [None] is an attribute that
    was never set. *)
Record SRLModules : Type := {
  model_type : string;
  state_dim : option Z;
  action_dim : option Z;
  ratio : option Q;
  forward_net : option Linear;
  inverse_net : option Linear;
  reward_net : option (Linear * Linear * Linear);
  nn_ : option encoder
}.

Definition getattr {A : Type} (name : string) (field : option A) : result A :=
  match field with
  | Some v => Ok v
  | None => Raise (AttributeError name)
  end.

(** [nn.Module.__init__], reached from each base class: it starts the
    dictionary of sub-modules afresh and keeps the plain attributes. *)
Definition Module_init (self : SRLModules) : SRLModules :=
  {| model_type := model_type self; state_dim := state_dim self;
     action_dim := action_dim self; ratio := ratio self;
     forward_net := None; inverse_net := None; reward_net := None; nn_ := None |}.

Definition initForwardNet (state_dim action_dim : Z) (ratio : Q) (self : SRLModules)
  : result SRLModules :=
  do l <- nn_Linear "forward_net"
            (py_int (inject_Z state_dim * ratio) + action_dim) state_dim;
  Ok {| model_type := model_type self; state_dim := Some state_dim;
        action_dim := Some action_dim; ratio := Some ratio;
        forward_net := Some l; inverse_net := inverse_net self;
        reward_net := reward_net self; nn_ := nn_ self |}.

Definition initInverseNet (state_dim action_dim : Z) (ratio : Q) (self : SRLModules)
  : result SRLModules :=
  do l <- nn_Linear "inverse_net"
            (py_int (inject_Z state_dim * ratio) * 2) action_dim;
  Ok {| model_type := model_type self; state_dim := Some state_dim;
        action_dim := Some action_dim; ratio := Some ratio;
        forward_net := forward_net self; inverse_net := Some l;
        reward_net := reward_net self; nn_ := nn_ self |}.

Definition initRewardNet (state_dim action_dim : Z) (ratio : Q) (self : SRLModules)
  : result SRLModules :=
  do l0 <- nn_Linear "reward_net.0" (py_int (inject_Z state_dim * ratio)) 2;
  do l2 <- nn_Linear "reward_net.2" 2 2;
  do l4 <- nn_Linear "reward_net.4" 2 2;
  Ok {| model_type := model_type self; state_dim := Some state_dim;
        action_dim := Some action_dim; ratio := Some ratio;
        forward_net := forward_net self; inverse_net := inverse_net self;
        reward_net := Some (l0, l2, l4); nn_ := nn_ self |}.

(** [BaseForwardModel.forwardModel]. *)
Definition forwardModel (self : SRLModules) (state : tensor) (action : list Z)
  : result tensor :=
  do sd <- getattr "state_dim" (state_dim self);
  do r <- getattr "ratio" (ratio self);
  do ad <- getattr "action_dim" (action_dim self);
  do onehot <- encodeOneHot action ad;
  do concat <- cat1 (columns_to (py_int (inject_Z sd * r)) state) onehot;
  do net <- getattr "forward_net" (forward_net self);
  do delta <- linear net concat;
  tensor_add state delta.

(** [BaseInverseModel.inverseModel]. *)
Definition inverseModel (self : SRLModules) (state next_state : tensor)
  : result tensor :=
  do net <- getattr "inverse_net" (inverse_net self);
  do sd <- getattr "state_dim" (state_dim self);
  do r <- getattr "ratio" (ratio self);
  do concat <- cat1 (columns_to (py_int (inject_Z sd * r)) state)
                    (columns_to (py_int (inject_Z sd * r)) next_state);
  linear net concat.

(** [nn.Sequential(Linear, ReLU, Linear, ReLU, Linear)]. *)
Definition Sequential (net : Linear * Linear * Linear) (x : tensor) : result tensor :=
  let '(l0, l2, l4) := net in
  do x1 <- linear l0 x;
  do x3 <- linear l2 (ReLU x1);
  linear l4 (ReLU x3).

(** [BaseRewardModel.rewardModel]. *)
Definition rewardModel (self : SRLModules) (state : tensor) : result tensor :=
  do net <- getattr "reward_net" (reward_net self);
  Sequential net state.

(** [x in losses]; [None] is not iterable. *)
Definition contains (x : string) (losses : option (list string)) : result bool :=
  match losses with
  | Some l => Ok (existsb (String.eqb x) l)
  | None => Raise (TypeError "argument of type 'NoneType' is not iterable")
  end.

Definition when (b : bool) (f : SRLModules -> result SRLModules) (self : SRLModules)
  : result SRLModules :=
  if b then f self else Ok self.

Definition set_nn (a : architecture) (fc : bool) (self : SRLModules) : SRLModules :=
  {| model_type := model_type self; state_dim := state_dim self;
     action_dim := action_dim self; ratio := ratio self;
     forward_net := forward_net self; inverse_net := inverse_net self;
     reward_net := reward_net self;
     nn_ := Some {| arch := a; on_cuda := false; fc_on_cuda := fc |} |}.

(** Lines 132-144: the base encoder, chosen by [model_type]. *)
Definition choose_architecture (state_dim : Z) (cuda : bool) (self : SRLModules)
  : SRLModules :=
  let mt := model_type self in
  if String.eqb mt "custom_cnn" then set_nn (CustomCNN state_dim) false self
  else if String.eqb mt "linear" then set_nn (SRLLinear state_dim cuda) false self
  else if String.eqb mt "mlp" then set_nn (SRLDenseNetwork state_dim cuda) false self
  else if String.eqb mt "resnet" then set_nn (SRLConvolutionalNetwork state_dim cuda) false self
  else if String.eqb mt "ae" then set_nn (CNNAutoEncoder state_dim) true self
  else self.

(** Lines 146-147: [self.nn.cuda()]. *)
Definition move_to_cuda (self : SRLModules) : result SRLModules :=
  do e <- getattr "nn" (nn_ self);
  Ok {| model_type := model_type self; state_dim := state_dim self;
        action_dim := action_dim self; ratio := ratio self;
        forward_net := forward_net self; inverse_net := inverse_net self;
        reward_net := reward_net self;
        nn_ := Some {| arch := arch e; on_cuda := true; fc_on_cuda := true |} |}.

(** [SRLModules.__init__]. *)
Definition init (state_dim action_dim : Z) (ratio : Q) (cuda : bool)
    (losses : option (list string)) (model_type : string) : result SRLModules :=
  let self := {| model_type := model_type; state_dim := None; action_dim := None;
                 ratio := None; forward_net := None; inverse_net := None;
                 reward_net := None; nn_ := None |} in
  do fwd <- contains "forward" losses;
  do inv <- contains "inverse" losses;
  do rew <- contains "reward" losses;
  do self <-
    (if negb fwd && negb inv && negb rew then Ok (Module_init self)
     else
       do self <- when fwd (fun s => Ok (Module_init s)) self;
       do self <- when inv (fun s => Ok (Module_init s)) self;
       do self <- when rew (fun s => Ok (Module_init s)) self;
       do self <- when fwd (initForwardNet state_dim action_dim ratio) self;
       do self <- when inv (initInverseNet state_dim action_dim ratio) self;
       when rew (initRewardNet state_dim action_dim ratio) self);
  let self := choose_architecture state_dim cuda self in
  if cuda then move_to_cuda self else Ok self.

(** The attributes the three heads read. *)
Definition head_attrs (self : SRLModules)
  : option Z * option Z * option Q
    * option Linear * option Linear * option (Linear * Linear * Linear) :=
  (state_dim self, action_dim self, ratio self,
   forward_net self, inverse_net self, reward_net self).

(** [int(state_dim * ratio)]: the number of leading state columns the
    heads are built for. *)
Definition sliced_width (state_dim : Z) (ratio : Q) : Z :=
  py_int (inject_Z state_dim * ratio).

End WithTensors.
End ForwardInverse.

(* --------------------------------------------------------------------- *)
(** ** Concrete instances                                                 *)
(* --------------------------------------------------------------------- *)

(** A small backend to run the trainer on: the parameters count the
    optimizer steps taken, the validation error after 1, 2, 3 steps is
    3, 1, 2, and every reordering reverses its argument. *)
Definition counting_backend : Backend := {|
  params := nat;
  opt_state := unit;
  row := nat;
  ConvolutionalNetwork := fun _ _ => 0;
  DenseNetwork := fun _ => 0;
  to_cuda := fun p => p;
  Adam := fun _ _ => tt;
  forward := fun p i => (100 * p + i)%nat;
  train_step := fun s _ => (S (fst s), snd s);
  criterion := fun p _ =>
    match p with
    | 1 => Finite 3
    | 2 => Finite 1
    | 3 => Finite 2
    | _ => NaN
    end;
  permutation := fun _ n => reverse (seq 0 n);
  shuffle := fun _ l => reverse l
|}.

(** Integer tensors whose new layers have zero weights and unit biases. *)
Definition unit_bias_tensors : Tensors := {|
  num := Z;
  tzero := 0%Z;
  tone := 1%Z;
  tadd := Z.add;
  tmul := Z.mul;
  trelu := Z.max 0;
  draw_weight := fun _ _ _ => 0%Z;
  draw_bias := fun _ _ => 1%Z
|}.

(** A trainer over [counting_backend], its runs of three and of no epoch,
    and a dataset of four samples. *)
Definition counting_trainer : @Supervised.SupervisedLearning counting_backend :=
  @Supervised.Build_SupervisedLearning counting_backend
    1 (* state_dim *) 32 (* batch_size *) 1 (* seed *) false (* cuda *)
    0%nat (* model *) tt (* optimizer *) "logs" (* log_folder *).

Definition three_epochs : Supervised.globals :=
  {| Supervised.N_EPOCHS := 3; Supervised.BATCH_SIZE := 32;
     Supervised.DISPLAY_PLOTS := true |}.

Definition no_epoch : Supervised.globals :=
  {| Supervised.N_EPOCHS := 0; Supervised.BATCH_SIZE := 32;
     Supervised.DISPLAY_PLOTS := true |}.

Definition four_states : list nat := [10; 11; 12; 13].

(** A log folder in which an earlier run left its checkpoint. *)
Definition earlier_run : gmap string nat :=
  {[ "logs/srl_supervised_model.pth" := 7 ]}.

(* --------------------------------------------------------------------- *)
(** ** models/forward_inverse.py: the calls to the encoder                *)
(* --------------------------------------------------------------------- *)

(** What [SRLModules] uses of the network stored in [self.nn]: calling it
    ([self.nn(x)]), its [forward] and [encode] methods (the autoencoder),
    and [x.contiguous()] on the input. *)
Class Networks `{Tensors} : Type := {
  observation : Type;
  output : Type;
  nn_call : ForwardInverse.encoder -> observation -> result output;
  nn_forward : ForwardInverse.encoder -> observation -> result output;
  nn_encode : ForwardInverse.encoder -> observation -> result output;
  contiguous : observation -> observation
}.

Module Encoding.
Section WithNetworks.
Context `{Networks}.
Import ForwardInverse.

(** [SRLModules.forward]. *)
Definition forward (self : SRLModules) (x : observation) : result output :=
  if String.eqb (model_type self) "ae"
  then do net <- getattr "nn" (nn_ self); nn_forward net x
  else
    let x := if (String.eqb (model_type self) "linear"
                 || String.eqb (model_type self) "mlp")%bool
             then contiguous x else x in
    do net <- getattr "nn" (nn_ self); nn_call net x.

(** [SRLModules.getStates]. *)
Definition getStates (self : SRLModules) (observations : observation)
  : result output :=
  if String.eqb (model_type self) "ae"
  then do net <- getattr "nn" (nn_ self); nn_encode net observations
  else forward self observations.

End WithNetworks.
End Encoding.

(** Networks over [unit_bias_tensors] that answer with the name of the
    method called and the input they got. *)
Definition echo_networks : @Networks unit_bias_tensors := {|
  observation := nat;
  output := string * nat;
  nn_call := fun _ x => Ok ("call", x);
  nn_forward := fun _ x => Ok ("forward", x);
  nn_encode := fun _ x => Ok ("encode", x);
  contiguous := fun x => x
|}.

(** A backend whose validation error is finite whatever the parameters:
    [1 / (1 + number of steps)]. *)
Definition halving_backend : Backend := {|
  params := nat;
  opt_state := unit;
  row := nat;
  ConvolutionalNetwork := fun _ _ => 0;
  DenseNetwork := fun _ => 0;
  to_cuda := fun p => p;
  Adam := fun _ _ => tt;
  forward := fun p i => (100 * p + i)%nat;
  train_step := fun s _ => (S (fst s), snd s);
  criterion := fun p _ => Finite (1 # Pos.of_succ_nat p);
  permutation := fun _ n => reverse (seq 0 n);
  shuffle := fun _ l => reverse l
|}.

Definition halving_trainer : @Supervised.SupervisedLearning halving_backend :=
  @Supervised.Build_SupervisedLearning halving_backend
    1 (* state_dim *) 32 (* batch_size *) 1 (* seed *) false (* cuda *)
    0%nat (* model *) tt (* optimizer *) "logs" (* log_folder *).

(* ===================================================================== *)
(** * Part II: properties                                                 *)
(* ===================================================================== *)

(** ** Minibatches *)

Lemma n_batches_covers (len bs : nat) : 0 < bs -> len <= n_batches len bs * bs.
Proof.
  intros Hbs. unfold n_batches.
  pose proof (Nat.div_mod (len + bs - 1) bs ltac:(lia)) as Hdiv.
  pose proof (Nat.mod_upper_bound (len + bs - 1) bs ltac:(lia)) as Hmod.
  nia.
Qed.

Lemma concat_prefix_batches {A : Type} (bs k : nat) (l : list A) :
  concat ((fun b => take bs (drop (b * bs) l)) <$> seq 0 k) = take (k * bs) l.
Proof.
  induction k as [|k IH].
  - by rewrite take_0.
  - rewrite seq_S, fmap_app, concat_app, IH. cbn [fmap list_fmap concat].
    rewrite app_nil_r, Nat.add_0_l, take_take_drop. f_equal. lia.
Qed.

(** Cutting a list into minibatches and gluing them back loses nothing. *)
Lemma concat_minibatches {A : Type} (bs : nat) (l : list A) :
  0 < bs -> concat (minibatches bs l) = l.
Proof.
  intros Hbs. unfold minibatches. rewrite concat_prefix_batches.
  apply take_ge. by apply n_batches_covers.
Qed.

(** ** The train/validation split *)

Lemma Qceiling_33_percent (n : nat) :
  Z.to_nat (Qceiling ((33 # 100) * inject_Z (Z.of_nat n))) = (33 * n + 99) / 100.
Proof.
  unfold Qceiling, Qfloor, Qopp, Qmult, inject_Z. cbn [Qnum Qden].
  rewrite Pos.mul_1_r.
  apply Nat2Z.inj. rewrite Nat2Z.inj_div, Nat2Z.inj_add, Nat2Z.inj_mul.
  change (Z.of_nat 33) with 33%Z. change (Z.of_nat 99) with 99%Z.
  change (Z.of_nat 100) with 100%Z.
  assert (0 <= - (- (33 * Z.of_nat n) / 100))%Z as Hnn.
  { Z.to_euclidean_division_equations. lia. }
  rewrite Z2Nat.id by lia.
  Z.to_euclidean_division_equations. lia.
Qed.

Section Split.
Context `{Backend}.

Lemma safe_indexing_seq (n : nat) (ind : list nat) :
  Forall (fun i => i < n) ind -> Supervised.safe_indexing (seq 0 n) ind = ind.
Proof.
  unfold Supervised.safe_indexing.
  induction 1 as [|i ind Hi _ IH]; [done|].
  cbn [omap list_omap]. rewrite lookup_seq_lt by done. cbn.
  fold (omap (fun i => seq 0 n !! i) ind). by rewrite IH.
Qed.

Lemma permutation_in_range (perm : list nat) (n : nat) :
  perm ≡ₚ seq 0 n -> Forall (fun i => i < n) perm.
Proof.
  intros Hp. apply Forall_forall. intros i Hi.
  rewrite Hp in Hi. apply elem_of_seq in Hi. lia.
Qed.

(** The index parts of the split: the validation indices are the first
    [n_test] entries of the permutation, the training indices the rest. *)
Lemma split_indices (seed : Z) (true_states : list row) :
  (forall s n, permutation s n ≡ₚ seq 0 n) ->
  let N := length true_states in
  let k := Supervised.n_test_of (33 # 100) N in
  let '(x_train, x_val, _, _) :=
    Supervised.train_test_split (seq 0 N) true_states (33 # 100) seed in
  x_train = drop k (permutation seed N) /\ x_val = take k (permutation seed N).
Proof.
  intros Hperm N k. unfold Supervised.train_test_split.
  rewrite length_seq. fold N. fold k.
  pose proof (Hperm seed N) as Hp.
  pose proof (permutation_in_range _ _ Hp) as Hr.
  assert (length (permutation seed N) = N) as Hlen.
  { rewrite Hp. apply length_seq. }
  rewrite !safe_indexing_seq by auto using Forall_take, Forall_drop.
  split; [|done].
  apply take_ge. rewrite length_drop. lia.
Qed.

End Split.

(** C1, the counts of the claim: with four samples the split keeps
    [4 - ceil(1.32) = 2] training indices, and [round(4 * 0.67) = 3]. *)
Lemma C1_round_count_fails :
  let '(x_train, x_val, _, _) :=
    @Supervised.train_test_split counting_backend nat nat
      (seq 0 4) [10; 11; 12; 13] (33 # 100) 1 in
  length x_train = 2 /\ length x_val = 2 /\
  py_round (inject_Z 4 * (67 # 100)) = 3%Z /\
  Z.of_nat (length x_train) <> py_round (inject_Z 4 * (67 # 100)).
Proof. vm_compute. repeat split; congruence. Qed.

(** C1 (amended): for every seed and every dataset of [N] samples the
    split inside [learn] is a function of the seed, and it partitions the
    indices [0..N-1] into [N - ceil(0.33 N)] training indices and
    [ceil(0.33 N)] validation indices: together they are a rearrangement
    of [0..N-1], so none is repeated, none is in both parts and none is
    left out. *)
Theorem C1_split_partition `{Backend} (seed : Z) (true_states : list row) :
  (forall s n, permutation s n ≡ₚ seq 0 n) ->
  let N := length true_states in
  let '(x_train, x_val, _, _) :=
    Supervised.train_test_split (seq 0 N) true_states (33 # 100) seed in
  (forall seed', seed' = seed ->
     Supervised.train_test_split (seq 0 N) true_states (33 # 100) seed'
     = Supervised.train_test_split (seq 0 N) true_states (33 # 100) seed) /\
  length x_val = (33 * N + 99) / 100 /\
  length x_train = N - (33 * N + 99) / 100 /\
  x_train ++ x_val ≡ₚ seq 0 N /\
  NoDup (x_train ++ x_val) /\
  (forall i, i ∈ x_train -> i ∉ x_val) /\
  (forall i, i < N -> i ∈ x_train \/ i ∈ x_val).
Proof.
  intros Hperm N.
  pose proof (split_indices seed true_states Hperm) as Hsplit. cbv zeta in Hsplit.
  fold N in Hsplit.
  destruct (Supervised.train_test_split (seq 0 N) true_states (33 # 100) seed)
    as [[[x_train x_val] y_train] y_val] eqn:Heq.
  destruct Hsplit as [-> ->].
  set (perm := permutation seed N). set (k := Supervised.n_test_of (33 # 100) N).
  assert (length perm = N) as Hlen.
  { unfold perm. rewrite (Hperm seed N). apply length_seq. }
  assert (k = (33 * N + 99) / 100) as Hk by apply Qceiling_33_percent.
  assert (k <= N) as HkN.
  { enough (k < S N) by lia. rewrite Hk. apply Nat.Div0.div_lt_upper_bound. lia. }
  assert (drop k perm ++ take k perm ≡ₚ seq 0 N) as Hpart.
  { rewrite Permutation_app_comm, take_drop. apply Hperm. }
  assert (NoDup (drop k perm ++ take k perm)) as Hnodup.
  { rewrite Hpart. apply NoDup_seq. }
  split; [by intros ? ->|].
  split; [rewrite length_take; lia|].
  split; [rewrite length_drop; lia|].
  split; [done|]. split; [done|]. split.
  - intros i Hi Hi'. apply NoDup_app in Hnodup as (_ & Hdisj & _). by eapply Hdisj.
  - intros i Hi. apply elem_of_app. rewrite Hpart. apply elem_of_seq. lia.
Qed.

Lemma C1_split_partition_witness :
  let '(x_train, x_val, _, _) :=
    @Supervised.train_test_split counting_backend nat nat
      (seq 0 4) [10; 11; 12; 13] (33 # 100) 1 in
  length x_val = 2 /\ length x_train = 2 /\ x_train ++ x_val ≡ₚ seq 0 4.
Proof.
  pose proof (@C1_split_partition counting_backend 1 [10; 11; 12; 13]
                (fun _ n => reverse_Permutation (seq 0 n))) as Hc.
  vm_compute in Hc. vm_compute.
  destruct Hc as (_ & Hv & Ht & Hp & _).
  split; [exact Hv|]. split; [exact Ht|]. exact Hp.
Defined.

(** ** Comparing floats *)

Lemma flt_Finite (a b : Q) : flt (Finite a) (Finite b) = true <-> (a < b)%Q.
Proof.
  cbn. rewrite Qlt_alt. destruct (a ?= b)%Q; split; congruence.
Qed.

Lemma flt_Finite_false (a b : Q) : flt (Finite a) (Finite b) = false <-> (b <= a)%Q.
Proof.
  split.
  - intros Hf. apply Qnot_lt_le. intros Hlt. apply flt_Finite in Hlt. congruence.
  - intros Hle. destruct (flt (Finite a) (Finite b)) eqn:Hf; [|done].
    apply flt_Finite in Hf. exfalso. by eapply Qlt_not_le.
Qed.

Lemma flt_irrefl (x : float) : flt x x = false.
Proof.
  destruct x as [q| | |]; try done. apply flt_Finite_false, Qle_refl.
Qed.

Lemma flt_below_PosInf (q : Q) : flt (Finite q) PosInf = true.
Proof. done. Qed.

Lemma flt_PosInf_l (x : float) : flt PosInf x = false.
Proof. by destruct x. Qed.

(** A value that does not improve on [b] does not improve on anything
    that improves on [b]. *)
Lemma flt_lower_bound (a b c : float) :
  flt a b = false -> flt c b = true -> flt a c = false.
Proof.
  destruct a as [a| | |], b as [b| | |], c as [c| | |];
    try (cbn; intros; done); [].
  rewrite flt_Finite, !flt_Finite_false. intros Hba Hcb.
  apply Qlt_le_weak. by eapply Qlt_le_trans.
Qed.

(** ... and, unless it is NaN, it is strictly above what improves on [b]. *)
Lemma flt_strictly_above (a b c : float) :
  flt a b = false -> flt c b = true -> a = NaN \/ flt c a = true.
Proof.
  destruct a as [a| | |], b as [b| | |], c as [c| | |];
    try (cbn; intros; (done || by auto)); [].
  rewrite !flt_Finite, flt_Finite_false. intros Hba Hcb.
  right. by eapply Qlt_le_trans.
Qed.

(** ** Loops *)

Lemma for_each_iterates_length {S X : Type} (body : S -> X -> result S)
    (xs : list X) (s s' : S) :
  for_each body xs s = Ok s' -> length (iterates body xs s) = length xs.
Proof.
  revert s. induction xs as [|x xs IH]; intros s; cbn; [done|].
  destruct (body s x) as [s1|]; cbn; [|done].
  intros Hrest. f_equal. by eapply IH.
Qed.

Lemma for_each_last {S X : Type} (body : S -> X -> result S)
    (xs : list X) (s s' : S) :
  for_each body xs s = Ok s' -> last (s :: iterates body xs s) = Some s'.
Proof.
  revert s. induction xs as [|x xs IH]; intros s; cbn [for_each iterates].
  - by intros [= ->].
  - destruct (body s x) as [s1|]; cbn [rbind]; [|done].
    intros Hrest. rewrite last_cons_cons. by apply IH.
Qed.

(** An invariant that every pass keeps, and that holds of the history so
    far, holds when the loop ends. *)
Lemma for_each_invariant {S X : Type} (body : S -> X -> result S)
    (Inv : list S -> S -> Prop) :
  (forall hist s x s', Inv hist s -> body s x = Ok s' -> Inv (hist ++ [s']) s') ->
  forall xs hist s s',
    Inv hist s -> for_each body xs s = Ok s' ->
    Inv (hist ++ iterates body xs s) s'.
Proof.
  intros Hstep xs. induction xs as [|x xs IH]; intros hist s s' Hinv;
    cbn [for_each iterates].
  - intros [= <-]. by rewrite app_nil_r.
  - destruct (body s x) as [s1|] eqn:Hbody; cbn [rbind]; [|done].
    intros Hrest. rewrite cons_middle, app_assoc.
    eapply IH; [|done]. by eapply Hstep.
Qed.

(** Consecutive states of the loop are related by one pass of the body. *)
Lemma iterates_step {S X : Type} (body : S -> X -> result S)
    (xs : list X) (s prev next : S) (i : nat) :
  (s :: iterates body xs s) !! i = Some prev ->
  iterates body xs s !! i = Some next ->
  exists x, xs !! i = Some x /\ body prev x = Ok next.
Proof.
  revert s i. induction xs as [|x xs IH]; intros s i; cbn [iterates]; [done|].
  destruct (body s x) as [s1|] eqn:Hbody; [|done].
  destruct i as [|i]; cbn.
  - intros [= <-] [= <-]. eauto.
  - intros Hprev Hnext. by eapply IH.
Qed.

(** ** The epoch loop of [learn] *)

Section Training.
Context `{Backend}.
Variables (g : Supervised.globals) (self : Supervised.SupervisedLearning).
Variables (files : gmap string params) (true_states : list row).

Local Abbreviation path := (Supervised.best_model_path (Supervised.log_folder self)).
Local Abbreviation body := (Supervised.epoch g self true_states).
Local Abbreviation loss := (Supervised.loss_of self true_states).
Local Abbreviation begin := (Supervised.start self files).

(** One epoch: the checkpoint is written when, and only when, the
    validation loss of the epoch's model is strictly below [best_error]. *)
Lemma epoch_checkpoint (r r1 : Supervised.run) (e : nat) :
  body r e = Ok r1 ->
  exists v, loss r1 = Ok v /\
    if flt v (Supervised.best_error r)
    then Supervised.best_error r1 = v /\
         Supervised.disk r1 = <[path := Supervised.cur_model r1]> (Supervised.disk r)
    else Supervised.best_error r1 = Supervised.best_error r /\
         Supervised.disk r1 = Supervised.disk r.
Proof.
  unfold Supervised.epoch, Supervised.epoch_body, Supervised.loss_of.
  destruct (foldl train_step _ _) as [m o].
  destruct (fdiv_len (Finite 0) _) as [?|]; cbn [rbind]; [|done].
  destruct (Supervised.validation_loss m _) as [v|] eqn:Hv; cbn [rbind]; [|done].
  destruct (flt v (Supervised.best_error r)) eqn:Hlt; intros [= <-];
    cbn [Supervised.cur_model Supervised.best_error Supervised.disk];
    exists v; rewrite Hv, Hlt; done.
Qed.

Lemma epoch_keeps_invariant (hist : list Supervised.run) (r r1 : Supervised.run) (e : nat) :
  Supervised.checkpoint_invariant self true_states files hist r ->
  body r e = Ok r1 ->
  Supervised.checkpoint_invariant self true_states files (hist ++ [r1]) r1.
Proof.
  intros [Hbound Hfile] Hbody.
  destruct (epoch_checkpoint _ _ _ Hbody) as (v & Hv & Hcase).
  destruct (flt v (Supervised.best_error r)) eqn:Hlt.
  - (* a strict improvement: the new model is saved *)
    destruct Hcase as [Hbest Hdisk]. split.
    + intros r' [Hin| ->%list_elem_of_singleton]%elem_of_app.
      * destruct (Hbound r' Hin) as (v' & Hv' & Hnot). exists v'. split; [done|].
        rewrite Hbest. by eapply flt_lower_bound.
      * exists v. split; [done|]. rewrite Hbest. apply flt_irrefl.
    + right. exists (length hist), r1. split; [|split].
      * split; [by apply list_lookup_middle|]. exists v. split; [done|]. split.
        -- intros ri vi [Hin| ->%list_elem_of_singleton]%elem_of_app Hvi.
           ++ destruct (Hbound ri Hin) as (v' & Hv' & Hnot).
              assert (vi = v') as -> by congruence. by eapply flt_lower_bound.
           ++ assert (vi = v) as -> by congruence. apply flt_irrefl.
        -- intros i ri vi Hi Hri Hvi. rewrite lookup_app_l in Hri by done.
           destruct (Hbound ri) as (v' & Hv' & Hnot).
           { apply list_elem_of_lookup. eauto. }
           assert (vi = v') as -> by congruence. by eapply flt_strictly_above.
      * by rewrite Hbest.
      * rewrite Hdisk. destruct Hfile as [[_ ->]|(j & rj & _ & _ & ->)]; [done|].
        by rewrite insert_insert_eq.
  - (* no improvement: nothing is written *)
    destruct Hcase as [Hbest Hdisk].
    unfold Supervised.checkpoint_invariant. rewrite Hbest, Hdisk. split.
    + intros r' [Hin| ->%list_elem_of_singleton]%elem_of_app; eauto.
    + destruct Hfile as [Hnone|(j & rj & (Hj & vj & Hvj & Hlow & Hfirst) & Hrj & Hd)];
        [by left|].
      right. exists j, rj. split; [|done].
      assert (vj = Supervised.best_error r) as -> by congruence.
      assert (j < length hist) as Hjlt by (by eapply lookup_lt_Some).
      split; [by apply lookup_app_l_Some|].
      exists (Supervised.best_error r). split; [done|]. split.
      * intros ri vi [Hin| ->%list_elem_of_singleton]%elem_of_app Hvi; [by eauto|].
        assert (vi = v) as -> by congruence. done.
      * intros i ri vi Hi Hri Hvi. rewrite lookup_app_l in Hri by lia. eauto.
Qed.

(** The invariant holds when the loop ends. *)
Lemma loop_invariant (r : Supervised.run) :
  for_each body (seq 0 (Supervised.N_EPOCHS g)) begin = Ok r ->
  Supervised.checkpoint_invariant self true_states files
    (iterates body (seq 0 (Supervised.N_EPOCHS g)) begin) r.
Proof.
  intros Hloop.
  apply (for_each_invariant body
           (Supervised.checkpoint_invariant self true_states files)
           (fun hist s x s' => epoch_keeps_invariant hist s s' x) _ [] begin r);
    [|done].
  split; [by intros ? ?%elem_of_nil|]. by left.
Qed.

End Training.

(** ** What [learn] returns *)

Lemma concat_fmap_fmap {A B : Type} (f : A -> B) (ls : list (list A)) :
  concat ((fun l : list A => f <$> l) <$> ls) = f <$> concat ls.
Proof.
  induction ls as [|l ls IH]; [done|].
  cbn [fmap list_fmap concat]. fold (fmap (M := list) f l).
  fold (fmap (M := list) (fun l : list A => f <$> l) ls).
  by rewrite IH, fmap_app.
Qed.

Section Representation.
Context `{Backend}.

(** The full-dataset loader is read in the order of the sample indices,
    whatever its batch size cuts. *)
Lemma predStates_data_loader (m : params) (true_states : list row) :
  Supervised.predStatesWithDataLoader m (Supervised.data_loader true_states)
  = forward m <$> seq 0 (length true_states).
Proof.
  unfold Supervised.predStatesWithDataLoader, Supervised.batches,
    Supervised.data_loader, Supervised.new_loader, Supervised.x_indices.
  cbn [Supervised.samples Supervised.loader_batch_size].
  rewrite concat_fmap_fmap, concat_minibatches
    by (unfold Supervised.TEST_BATCH_SIZE; lia).
  change (fun s : nat * row => forward m s.1) with (forward m ∘ @fst nat row).
  rewrite list_fmap_compose, fst_zip; [done|].
  by rewrite length_seq.
Qed.

Lemma learn_inv (g : Supervised.globals) (self : Supervised.SupervisedLearning)
    (files : gmap string params) (true_states : list row) (out : Supervised.outcome) :
  Supervised.learn g self files true_states = Ok out ->
  exists r best,
    for_each (Supervised.epoch g self true_states)
      (seq 0 (Supervised.N_EPOCHS g)) (Supervised.start self files) = Ok r /\
    Supervised.disk r !! Supervised.best_model_path (Supervised.log_folder self)
      = Some best /\
    Supervised.returned out
      = Supervised.predStatesWithDataLoader best (Supervised.data_loader true_states) /\
    Supervised.cur_model (Supervised.final out) = best /\
    Supervised.best_error (Supervised.final out) = Supervised.best_error r /\
    Supervised.disk (Supervised.final out) = Supervised.disk r.
Proof.
  unfold Supervised.learn, Supervised.load.
  destruct (for_each _ _ _) as [r|]; cbn [rbind]; [|done].
  destruct (Supervised.disk r !! _) as [best|] eqn:Hfile; cbn [rbind]; [|done].
  intros [= <-]. by exists r, best.
Qed.

End Representation.


(** C3: the returned array has one row per sample, and its [i]-th row is
    the prediction for sample [i]; the order in which the training loader
    draws its batches (any [shuffle]) has no part in it. *)
Theorem C3_rows_in_sample_order `{Backend}
    (g : Supervised.globals) (self : Supervised.SupervisedLearning)
    (files : gmap string params) (true_states : list row) (out : Supervised.outcome) :
  Supervised.learn g self files true_states = Ok out ->
  length (Supervised.returned out) = length true_states /\
  forall i, i < length true_states ->
    Supervised.returned out !! i
    = Some (forward (Supervised.cur_model (Supervised.final out)) i).
Proof.
  intros Hlearn.
  destruct (learn_inv _ _ _ _ _ Hlearn) as (r & best & _ & _ & -> & -> & _).
  rewrite predStates_data_loader. split.
  - by rewrite length_fmap, length_seq.
  - intros i Hi. by rewrite list_lookup_fmap, lookup_seq_lt.
Qed.


Lemma C3_rows_in_sample_order_witness :
  exists out,
    @Supervised.learn counting_backend three_epochs counting_trainer ∅ four_states
      = Ok out /\
    length (Supervised.returned out) = 4 /\
    Supervised.returned out !! 3
      = Some (@forward counting_backend (Supervised.cur_model (Supervised.final out)) 3).
Proof.
  destruct (@Supervised.learn counting_backend three_epochs counting_trainer
              ∅ four_states) as [out|e] eqn:Hl; [|by vm_compute in Hl].
  exists out. split; [done|].
  pose proof (@C3_rows_in_sample_order counting_backend _ _ _ _ _ Hl) as [Hlen Hrow].
  split; [exact Hlen|]. apply Hrow. cbn. lia.
Defined.

(** ** The checkpoint file at the end of the loop *)

Lemma for_each_preserves {S X : Type} (body : S -> X -> result S) (P : S -> Prop) :
  (forall s x s', P s -> body s x = Ok s' -> P s') ->
  forall xs s s', P s -> for_each body xs s = Ok s' -> P s'.
Proof.
  intros Hstep xs. induction xs as [|x xs IH]; intros s s' Hs; cbn [for_each].
  - by intros [= <-].
  - destruct (body s x) as [s1|] eqn:Hbody; cbn [rbind]; [|done].
    apply IH. by eapply Hstep.
Qed.

Section CheckpointFile.
Context `{Backend}.
Variables (g : Supervised.globals) (self : Supervised.SupervisedLearning).
Variables (files : gmap string params) (true_states : list row).

Local Abbreviation path := (Supervised.best_model_path (Supervised.log_folder self)).
Local Abbreviation body := (Supervised.epoch g self true_states).

(** No epoch removes the checkpoint. *)
Lemma epoch_keeps_file (r r1 : Supervised.run) (e : nat) :
  is_Some (Supervised.disk r !! path) -> body r e = Ok r1 ->
  is_Some (Supervised.disk r1 !! path).
Proof.
  intros Hfile Hbody.
  destruct (epoch_checkpoint g self true_states _ _ _ Hbody) as (v & _ & Hcase).
  destruct (flt v (Supervised.best_error r)); destruct Hcase as [_ ->]; [|done].
  rewrite lookup_insert_eq. eauto.
Qed.

Lemma load_after_loop (r : Supervised.run) :
  for_each body (seq 0 (Supervised.N_EPOCHS g)) (Supervised.start self files) = Ok r ->
  Supervised.learn g self files true_states
  = match Supervised.disk r !! path with
    | Some best =>
        Ok {| Supervised.returned :=
                Supervised.predStatesWithDataLoader best
                  (Supervised.data_loader true_states);
              Supervised.final :=
                {| Supervised.cur_model := best;
                   Supervised.cur_optimizer := Supervised.cur_optimizer r;
                   Supervised.best_error := Supervised.best_error r;
                   Supervised.disk := Supervised.disk r;
                   Supervised.plotted := Supervised.plotted r |} |}
    | None => Raise (FileNotFoundError path)
    end.
Proof.
  intros Hloop. unfold Supervised.learn, Supervised.load. rewrite Hloop.
  cbn [rbind]. by destruct (Supervised.disk r !! path).
Qed.

End CheckpointFile.

(** C10, the last part of the claim: with no epoch and a checkpoint left
    in the log folder by an earlier run, the load after the (empty) loop
    succeeds, and [learn] returns the predictions of the old parameters. *)
Lemma C10_old_checkpoint_is_loaded :
  exists out,
    @Supervised.learn counting_backend no_epoch counting_trainer earlier_run four_states
      = Ok out /\
    Supervised.returned out = [700; 701; 702; 703].
Proof. eexists. split; by vm_compute. Qed.

(** C10 (amended): when [learn] runs at least one epoch and the validation
    loss of the first epoch is finite, the checkpoint is written in that
    epoch, and the load after the loop finds it.  With no epoch nothing is
    written in this run: the load fails when no file was at that path
    before the call, and otherwise it loads the file that was there. *)
Theorem C10_checkpoint_at_load `{Backend}
    (g : Supervised.globals) (self : Supervised.SupervisedLearning)
    (files : gmap string params) (true_states : list row) :
  let path := Supervised.best_model_path (Supervised.log_folder self) in
  let begin := Supervised.start self files in
  let body := Supervised.epoch g self true_states in
  (forall r1 q,
     0 < Supervised.N_EPOCHS g ->
     body begin 0 = Ok r1 ->
     Supervised.loss_of self true_states r1 = Ok (Finite q) ->
     Supervised.disk r1 !! path = Some (Supervised.cur_model r1) /\
     forall r, for_each body (seq 0 (Supervised.N_EPOCHS g)) begin = Ok r ->
       is_Some (Supervised.disk r !! path) /\
       exists out, Supervised.learn g self files true_states = Ok out) /\
  (Supervised.N_EPOCHS g = 0 ->
     for_each body (seq 0 (Supervised.N_EPOCHS g)) begin = Ok begin /\
     Supervised.disk begin = files /\
     (files !! path = None ->
        Supervised.learn g self files true_states = Raise (FileNotFoundError path)) /\
     (forall old, files !! path = Some old ->
        exists out, Supervised.learn g self files true_states = Ok out /\
          Supervised.returned out
          = Supervised.predStatesWithDataLoader old (Supervised.data_loader true_states))).
Proof.
  cbv zeta. split.
  - intros r1 q Hpos Hbody Hloss.
    destruct (epoch_checkpoint g self true_states _ _ _ Hbody) as (v & Hv & Hcase).
    assert (v = Finite q) as -> by congruence.
    cbn in Hcase. destruct Hcase as [_ Hdisk].
    split; [rewrite Hdisk; apply lookup_insert_eq|]. intros r Hloop.
    assert (is_Some (Supervised.disk r
              !! Supervised.best_model_path (Supervised.log_folder self))) as Hsome.
    { destruct (Supervised.N_EPOCHS g) as [|n]; [lia|].
      cbn [seq for_each] in Hloop.
      rewrite Hbody in Hloop. cbn [rbind] in Hloop.
      eapply (for_each_preserves (Supervised.epoch g self true_states)
                (fun s => is_Some (Supervised.disk s
                   !! Supervised.best_model_path (Supervised.log_folder self))));
        [| |exact Hloop].
      - intros s x s' Hs Hstep. by eapply epoch_keeps_file.
      - rewrite Hdisk, lookup_insert_eq. eauto. }
    split; [done|].
    rewrite (load_after_loop g self files true_states r Hloop).
    destruct Hsome as [best ->]. eauto.
  - intros Hzero.
    assert (for_each (Supervised.epoch g self true_states)
              (seq 0 (Supervised.N_EPOCHS g)) (Supervised.start self files)
            = Ok (Supervised.start self files)) as Hloop
      by (by rewrite Hzero).
    split; [done|]. split; [done|]. split.
    + intros Hnone. rewrite (load_after_loop g self files true_states _ Hloop).
      cbn [Supervised.start Supervised.disk]. by rewrite Hnone.
    + intros old Hold. rewrite (load_after_loop g self files true_states _ Hloop).
      cbn [Supervised.start Supervised.disk]. rewrite Hold. eauto.
Qed.

Lemma C10_checkpoint_at_load_witness :
  (exists out,
     @Supervised.learn counting_backend three_epochs counting_trainer ∅ four_states
       = Ok out) /\
  @Supervised.learn counting_backend no_epoch counting_trainer ∅ four_states
    = Raise (FileNotFoundError "logs/srl_supervised_model.pth").
Proof.
  split.
  - destruct (@C10_checkpoint_at_load counting_backend three_epochs
                counting_trainer ∅ four_states) as [Hfirst _].
    destruct (@Supervised.epoch counting_backend three_epochs counting_trainer
                four_states (Supervised.start counting_trainer ∅) 0)
      as [r1|] eqn:Hbody; [|by vm_compute in Hbody].
    assert (Supervised.loss_of counting_trainer four_states r1 = Ok (Finite (3 # 1)))
      as Hloss.
    { vm_compute in Hbody. injection Hbody as <-. by vm_compute. }
    destruct (Hfirst r1 (3 # 1) ltac:(cbn; lia) eq_refl Hloss) as [_ Hload].
    destruct (for_each (@Supervised.epoch counting_backend three_epochs
                          counting_trainer four_states)
                (seq 0 (Supervised.N_EPOCHS three_epochs))
                (Supervised.start counting_trainer ∅))
      as [r|] eqn:Hloop; [|by vm_compute in Hloop].
    by destruct (Hload r eq_refl) as [_ Hout].
  - destruct (@C10_checkpoint_at_load counting_backend no_epoch
                counting_trainer ∅ four_states) as [_ Hzero].
    destruct (Hzero eq_refl) as (_ & _ & Hnone & _).
    apply Hnone. done.
Defined.

(* --------------------------------------------------------------------- *)
(** ** The constructors                                                   *)
(* --------------------------------------------------------------------- *)

Section Construction.
Context `{Tensors}.
Import ForwardInverse.

Lemma choose_architecture_heads (sd : Z) (cuda : bool) (self : SRLModules) :
  head_attrs (choose_architecture sd cuda self) = head_attrs self.
Proof.
  unfold choose_architecture.
  repeat (destruct (String.eqb _ _); [done|]). done.
Qed.

Lemma move_to_cuda_heads (self self' : SRLModules) :
  move_to_cuda self = Ok self' -> head_attrs self' = head_attrs self.
Proof.
  unfold move_to_cuda. destruct (nn_ self); cbn; [|done]. by intros [= <-].
Qed.

Lemma nn_Linear_inv (name : string) (n_in n_out : Z) (l : Linear) :
  nn_Linear name n_in n_out = Ok l ->
  l = {| in_features := n_in; out_features := n_out;
         weight := draw_weight name; bias := draw_bias name |} /\
  (0 <= n_in)%Z /\ (0 <= n_out)%Z.
Proof.
  unfold nn_Linear. destruct (_ || _)%bool eqn:Hneg; [done|].
  apply orb_false_iff in Hneg as [?%Z.ltb_ge ?%Z.ltb_ge]. by intros [= <-].
Qed.

Lemma initForwardNet_inv (sd ad : Z) (r : Q) (self self' : SRLModules) :
  initForwardNet sd ad r self = Ok self' ->
  exists l, nn_Linear "forward_net" (sliced_width sd r + ad) sd = Ok l /\
    head_attrs self'
    = (Some sd, Some ad, Some r, Some l, inverse_net self, reward_net self).
Proof.
  unfold initForwardNet, sliced_width.
  destruct (nn_Linear _ _ _) as [l|]; cbn [rbind]; [|done].
  intros [= <-]. by exists l.
Qed.

Lemma initInverseNet_inv (sd ad : Z) (r : Q) (self self' : SRLModules) :
  initInverseNet sd ad r self = Ok self' ->
  exists l, nn_Linear "inverse_net" (sliced_width sd r * 2) ad = Ok l /\
    head_attrs self'
    = (Some sd, Some ad, Some r, forward_net self, Some l, reward_net self).
Proof.
  unfold initInverseNet, sliced_width.
  destruct (nn_Linear _ _ _) as [l|]; cbn [rbind]; [|done].
  intros [= <-]. by exists l.
Qed.

Lemma initRewardNet_inv (sd ad : Z) (r : Q) (self self' : SRLModules) :
  initRewardNet sd ad r self = Ok self' ->
  exists l0 l2 l4,
    nn_Linear "reward_net.0" (sliced_width sd r) 2 = Ok l0 /\
    nn_Linear "reward_net.2" 2 2 = Ok l2 /\
    nn_Linear "reward_net.4" 2 2 = Ok l4 /\
    head_attrs self'
    = (Some sd, Some ad, Some r, forward_net self, inverse_net self, Some (l0, l2, l4)).
Proof.
  unfold initRewardNet, sliced_width.
  destruct (nn_Linear "reward_net.0" _ _) as [l0|]; cbn [rbind]; [|done].
  destruct (nn_Linear "reward_net.2" _ _) as [l2|]; cbn [rbind]; [|done].
  destruct (nn_Linear "reward_net.4" _ _) as [l4|]; cbn [rbind]; [|done].
  intros [= <-]. by exists l0, l2, l4.
Qed.

(** The last two steps of [__init__] leave the heads as they are. *)
Lemma init_tail_heads (sd : Z) (cuda : bool) (s self : SRLModules) :
  (if cuda then move_to_cuda (choose_architecture sd cuda s)
   else Ok (choose_architecture sd cuda s)) = Ok self ->
  head_attrs self = head_attrs s.
Proof.
  destruct cuda.
  - intros Hm%move_to_cuda_heads. by rewrite Hm, choose_architecture_heads.
  - intros [= <-]. apply choose_architecture_heads.
Qed.

(** What [__init__] leaves in the attributes of each requested head. *)
Lemma init_heads (sd ad : Z) (r : Q) (cuda : bool) (losses : list string)
    (mt : string) (self : SRLModules) :
  init sd ad r cuda (Some losses) mt = Ok self ->
  (existsb (String.eqb "forward") losses = true ->
   exists l, nn_Linear "forward_net" (sliced_width sd r + ad) sd = Ok l /\
     forward_net self = Some l /\
     state_dim self = Some sd /\ action_dim self = Some ad /\ ratio self = Some r) /\
  (existsb (String.eqb "inverse") losses = true ->
   exists l, nn_Linear "inverse_net" (sliced_width sd r * 2) ad = Ok l /\
     inverse_net self = Some l /\
     state_dim self = Some sd /\ action_dim self = Some ad /\ ratio self = Some r) /\
  (existsb (String.eqb "reward") losses = true ->
   exists l0 l2 l4,
     nn_Linear "reward_net.0" (sliced_width sd r) 2 = Ok l0 /\
     nn_Linear "reward_net.2" 2 2 = Ok l2 /\
     nn_Linear "reward_net.4" 2 2 = Ok l4 /\
     reward_net self = Some (l0, l2, l4) /\
     state_dim self = Some sd /\ action_dim self = Some ad /\ ratio self = Some r).
Proof.
  unfold init, contains. cbn [rbind].
  destruct (existsb (String.eqb "forward") losses),
           (existsb (String.eqb "inverse") losses),
           (existsb (String.eqb "reward") losses);
    cbn [negb andb when rbind];
    repeat match goal with
      | |- context [initForwardNet ?a ?b ?c ?obj] =>
          destruct (initForwardNet a b c obj) as [?self|] eqn:?Hf; cbn [rbind]; [|done];
          apply initForwardNet_inv in Hf as (?l & ?Hl & ?Ha)
      | |- context [initInverseNet ?a ?b ?c ?obj] =>
          destruct (initInverseNet a b c obj) as [?self|] eqn:?Hi; cbn [rbind]; [|done];
          apply initInverseNet_inv in Hi as (?l & ?Hl & ?Ha)
      | |- context [initRewardNet ?a ?b ?c ?obj] =>
          destruct (initRewardNet a b c obj) as [?self|] eqn:?Hr; cbn [rbind]; [|done];
          apply initRewardNet_inv in Hr as (?l & ?l & ?l & ?Hl & ?Hl & ?Hl & ?Ha)
      end;
    intros Htail%init_tail_heads;
    unfold head_attrs in *; simplify_eq;
    (split; [|split]); intros ?; try done;
    repeat match goal with
      | |- ex _ => eexists
      | |- _ /\ _ => split
      end;
    first [eassumption | congruence].
Qed.

(** With no head requested, none of the head attributes is set. *)
Lemma init_no_head (sd ad : Z) (r : Q) (cuda : bool) (losses : list string)
    (mt : string) (self : SRLModules) :
  init sd ad r cuda (Some losses) mt = Ok self ->
  existsb (String.eqb "forward") losses = false ->
  existsb (String.eqb "inverse") losses = false ->
  existsb (String.eqb "reward") losses = false ->
  head_attrs self = (None, None, None, None, None, None).
Proof.
  unfold init, contains. cbn [rbind]. intros Hinit Hf Hi Hr.
  rewrite Hf, Hi, Hr in Hinit.
  cbn [negb andb rbind] in Hinit. by apply init_tail_heads in Hinit.
Qed.

End Construction.

(* --------------------------------------------------------------------- *)
(** ** Shapes                                                             *)
(* --------------------------------------------------------------------- *)

Lemma py_int_nonneg_floor (q : Q) : (0 <= q)%Q -> py_int q = Qfloor q.
Proof.
  destruct q as [n d]. unfold Qle, py_int, Qfloor. cbn [Qnum Qden]. intros Hn.
  apply Z.quot_div_nonneg; lia.
Qed.

(** For a ratio in [[0, 1]] the sliced width is [floor(state_dim * ratio)]
    and lies between 0 and [state_dim]. *)
Lemma sliced_width_bounds (sd : Z) (r : Q) :
  (0 <= sd)%Z -> (0 <= r)%Q -> (r <= 1)%Q ->
  ForwardInverse.sliced_width sd r = Qfloor (inject_Z sd * r) /\
  (0 <= ForwardInverse.sliced_width sd r <= sd)%Z.
Proof.
  intros Hsd H0 H1. unfold ForwardInverse.sliced_width.
  assert (0 <= inject_Z sd)%Q as Hsd' by (unfold Qle; cbn; lia).
  assert (0 <= inject_Z sd * r)%Q as Hprod by (by apply Qmult_le_0_compat).
  rewrite py_int_nonneg_floor by done. split; [done|]. split.
  - change 0%Z with (Qfloor 0). by apply Qfloor_resp_le.
  - rewrite <-(Qfloor_Z sd) at 2. apply Qfloor_resp_le.
    rewrite <-(Qmult_1_r (inject_Z sd)) at 2.
    rewrite !(Qmult_comm (inject_Z sd)). by apply Qmult_le_compat_r.
Qed.

Section Shapes.
Context `{Tensors}.
Import ForwardInverse.

Lemma has_widthb_spec (w : Z) (t : tensor) : has_widthb w t = true <-> has_width w t.
Proof.
  unfold has_widthb, has_width. induction t as [|r t IH]; cbn [forallb].
  - split; [by constructor|done].
  - rewrite andb_true_iff, Forall_cons, IH, Z.eqb_eq. done.
Qed.

Lemma length_linear_row (l : Linear) (x : list num) :
  length (linear_row l x) = Z.to_nat (out_features l).
Proof. unfold linear_row. by rewrite length_fmap, length_seq. Qed.

Lemma linear_inv (l : Linear) (x y : tensor) :
  linear l x = Ok y -> has_width (in_features l) x /\ y = linear_row l <$> x.
Proof.
  unfold linear. destruct (has_widthb _ _) eqn:Hw; [|done].
  apply has_widthb_spec in Hw. by intros [= <-].
Qed.

Lemma linear_ok (l : Linear) (x : tensor) :
  has_width (in_features l) x -> linear l x = Ok (linear_row l <$> x).
Proof.
  intros Hw%has_widthb_spec. unfold linear. by rewrite Hw.
Qed.

Lemma linear_row_width (l : Linear) (x : tensor) :
  (0 <= out_features l)%Z ->
  has_width (out_features l) (linear_row l <$> x) /\
  length (linear_row l <$> x) = length x.
Proof.
  intros Hout. split; [|by rewrite length_fmap].
  unfold has_width. apply Forall_fmap, Forall_true. intros r. cbn.
  rewrite length_linear_row. lia.
Qed.

Lemma ReLU_width (w : Z) (x : tensor) : has_width w x -> has_width w (ReLU x).
Proof.
  unfold has_width, ReLU. intros Hw. apply Forall_fmap.
  eapply Forall_impl; [done|]. intros r Hr. cbn. by rewrite length_fmap.
Qed.

Lemma columns_to_width (w k : Z) (t : tensor) :
  (0 <= k <= w)%Z -> has_width w t -> has_width k (columns_to k t).
Proof.
  intros Hk Hw. unfold has_width, columns_to. apply Forall_fmap.
  eapply Forall_impl; [done|]. intros r Hr. cbn in *. unfold slice_to.
  destruct (Z.leb_spec 0 k); [|lia]. rewrite length_take. lia.
Qed.

Lemma length_columns_to (k : Z) (t : tensor) : length (columns_to k t) = length t.
Proof. unfold columns_to. apply length_fmap. Qed.

Lemma encodeOneHot_ok (action : list Z) (n_dim : Z) :
  Forall (fun a => 0 <= a < n_dim)%Z action ->
  exists onehot, encodeOneHot action n_dim = Ok onehot /\
    has_width n_dim onehot /\ length onehot = length action.
Proof.
  intros Hrange. exists (one_hot_row n_dim <$> action). split; [|split].
  - unfold encodeOneHot.
    assert (forallb (fun a => (0 <=? a)%Z && (a <? n_dim)%Z) action = true) as ->;
      [|done].
    apply forallb_forall. intros a Ha%list_elem_of_In.
    rewrite Forall_forall in Hrange. specialize (Hrange a Ha).
    apply andb_true_iff. split; [apply Z.leb_le|apply Z.ltb_lt]; lia.
  - unfold has_width. apply Forall_fmap. eapply Forall_impl; [done|].
    intros a Ha. cbn in *. unfold one_hot_row. rewrite length_fmap, length_seq. lia.
  - apply length_fmap.
Qed.

Lemma zip_with_app_width (w1 w2 : Z) (a b : tensor) :
  has_width w1 a -> has_width w2 b -> has_width (w1 + w2) (zip_with app a b).
Proof.
  unfold has_width. intros Ha. revert b.
  induction Ha as [|r a Hr Ha IH]; intros b Hb; [constructor|].
  destruct Hb as [|r' b Hr' Hb]; [constructor|].
  cbn [zip_with]. constructor; [|by apply IH].
  rewrite length_app. lia.
Qed.

Lemma cat1_ok (w1 w2 : Z) (a b : tensor) :
  length a = length b -> has_width w1 a -> has_width w2 b ->
  cat1 a b = Ok (zip_with app a b) /\
  has_width (w1 + w2) (zip_with app a b) /\
  length (zip_with app a b) = length a.
Proof.
  intros Hlen Ha Hb. unfold cat1.
  rewrite (proj2 (Nat.eqb_eq _ _) Hlen). split; [done|].
  split; [by apply zip_with_app_width|].
  rewrite length_zip_with. lia.
Qed.

Lemma tensor_add_ok (w : Z) (a b : tensor) :
  length a = length b -> has_width w a -> has_width w b ->
  exists out, tensor_add a b = Ok out /\ has_width w out /\ length out = length a.
Proof.
  intros Hlen Ha Hb. exists (zip_with (zip_with tadd) a b). split; [|split].
  - unfold tensor_add. rewrite (proj2 (Nat.eqb_eq _ _) Hlen). cbn [andb].
    assert (forallb (fun p : list num * list num => (length p.1 =? length p.2)%nat)
              (zip a b) = true) as ->; [|done].
    apply forallb_forall. intros [r r'] Hin%list_elem_of_In.
    apply elem_of_zip_l in Hin as Hl. apply elem_of_zip_r in Hin as Hr.
    unfold has_width in *. rewrite Forall_forall in Ha, Hb.
    apply Nat.eqb_eq. cbn. specialize (Ha r Hl). specialize (Hb r' Hr). lia.
  - unfold has_width in *. clear Hlen. revert b Hb.
    induction Ha as [|r a Hr Ha IH]; intros b Hb; [constructor|].
    destruct Hb as [|r' b Hr' Hb]; [constructor|].
    cbn [zip_with]. constructor; [|by apply IH].
    rewrite length_zip_with. lia.
  - rewrite length_zip_with. lia.
Qed.

End Shapes.

(* --------------------------------------------------------------------- *)
(** ** The forward, inverse and reward heads                              *)
(* --------------------------------------------------------------------- *)

Section Heads.
Context `{Tensors}.
Import ForwardInverse.

(** The forward head of an object built with ["forward"] among its
    losses, and what [forwardModel] computes with it. *)
Lemma forwardModel_unfold (sd ad : Z) (r : Q) (cuda : bool) (losses : list string)
    (mt : string) (self : SRLModules) :
  init sd ad r cuda (Some losses) mt = Ok self ->
  existsb (String.eqb "forward") losses = true ->
  exists L,
    forward_net self = Some L /\
    in_features L = (sliced_width sd r + ad)%Z /\ out_features L = sd /\
    (0 <= sd)%Z /\
    forall state action,
      forwardModel self state action
      = (do onehot <- encodeOneHot action ad;
         do concat <- cat1 (columns_to (sliced_width sd r) state) onehot;
         do delta <- linear L concat;
         tensor_add state delta).
Proof.
  intros Hinit Hfwd.
  destruct (init_heads _ _ _ _ _ _ _ Hinit) as (Hf & _ & _).
  destruct (Hf Hfwd) as (L & HL & Hnet & Hsd & Had & Hr).
  apply nn_Linear_inv in HL as (HL & _ & Hout).
  exists L. split; [done|]. split; [by rewrite HL|]. split; [by rewrite HL|].
  split; [done|]. intros state action.
  unfold forwardModel, sliced_width. rewrite Hnet, Hsd, Had, Hr. done.
Qed.

Lemma inverseModel_unfold (sd ad : Z) (r : Q) (cuda : bool) (losses : list string)
    (mt : string) (self : SRLModules) :
  init sd ad r cuda (Some losses) mt = Ok self ->
  existsb (String.eqb "inverse") losses = true ->
  exists L,
    inverse_net self = Some L /\
    in_features L = (sliced_width sd r * 2)%Z /\ out_features L = ad /\
    (0 <= ad)%Z /\
    forall state next_state,
      inverseModel self state next_state
      = (do concat <- cat1 (columns_to (sliced_width sd r) state)
                           (columns_to (sliced_width sd r) next_state);
         linear L concat).
Proof.
  intros Hinit Hinv.
  destruct (init_heads _ _ _ _ _ _ _ Hinit) as (_ & Hi & _).
  destruct (Hi Hinv) as (L & HL & Hnet & Hsd & Had & Hr).
  apply nn_Linear_inv in HL as (HL & _ & Hout).
  exists L. split; [done|]. split; [by rewrite HL|]. split; [by rewrite HL|].
  split; [done|]. intros state next_state.
  unfold inverseModel, sliced_width. rewrite Hnet, Hsd, Hr. done.
Qed.


(** C6, as the claim states it: with [state_dim = 2], [ratio = 0.5] and a
    layer whose biases are 1, the state [(5, 7)] is sent to [(6, 8)]: the
    dimension of index 1 [>= floor(2 * 0.5)] is not the one of the input. *)
Lemma C6_remainder_is_changed :
  exists self out,
    @init unit_bias_tensors 2 1 (1 # 2) false (Some ["forward"]) "custom_cnn" = Ok self /\
    sliced_width 2 (1 # 2) = 1%Z /\
    @forwardModel unit_bias_tensors self [[5; 7]%Z] [0%Z] = Ok out /\
    out = [[6; 8]%Z] /\
    out !! 0 ≫= (.!! 1) = Some 8%Z /\
    [[5; 7]%Z] !! 0 ≫= (.!! 1) = Some 7%Z.
Proof. do 2 eexists. split; [reflexivity|]. by repeat split. Qed.

(** C6 (amended): the forward head does not read the remainder of the
    state.  The delta [forwardModel] adds to the current state is computed
    from the first [int(state_dim * ratio)] columns and the action only:
    two state batches that agree on those columns get the same delta.  The
    delta has [state_dim] columns and is added to all of them. *)
Theorem C6_delta_ignores_remainder (sd ad : Z) (r : Q) (cuda : bool)
    (losses : list string) (mt : string) (self : SRLModules)
    (state1 state2 : tensor) (action : list Z) (out1 : tensor) :
  init sd ad r cuda (Some losses) mt = Ok self ->
  existsb (String.eqb "forward") losses = true ->
  columns_to (sliced_width sd r) state1 = columns_to (sliced_width sd r) state2 ->
  forwardModel self state1 action = Ok out1 ->
  exists delta,
    has_width sd delta /\
    tensor_add state1 delta = Ok out1 /\
    forwardModel self state2 action = tensor_add state2 delta.
Proof.
  intros Hinit Hfwd Hsame.
  destruct (forwardModel_unfold _ _ _ _ _ _ _ Hinit Hfwd)
    as (L & Hnet & Hin & Hout & Hsd & Hformula).
  rewrite !Hformula, <-Hsame.
  destruct (encodeOneHot action ad) as [onehot|]; cbn [rbind]; [|done].
  destruct (cat1 _ onehot) as [concat|]; cbn [rbind]; [|done].
  destruct (linear L concat) as [delta|] eqn:Hdelta; cbn [rbind]; [|done].
  intros Hadd. exists delta. split; [|done].
  apply linear_inv in Hdelta as [_ ->]. rewrite <-Hout.
  apply linear_row_width. lia.
Qed.


End Heads.


Lemma C6_delta_ignores_remainder_witness :
  exists self delta,
    @ForwardInverse.init unit_bias_tensors 2 1 (1 # 2) false (Some ["forward"]) "custom_cnn"
      = Ok self /\
    @ForwardInverse.tensor_add unit_bias_tensors [[5; 7]%Z] delta = Ok [[6; 8]%Z] /\
    @ForwardInverse.forwardModel unit_bias_tensors self [[5; 9]%Z] [0%Z]
    = @ForwardInverse.tensor_add unit_bias_tensors [[5; 9]%Z] delta.
Proof.
  destruct (@ForwardInverse.init unit_bias_tensors 2 1 (1 # 2) false
              (Some ["forward"]) "custom_cnn") as [self|] eqn:Hinit; [|done].
  destruct (@C6_delta_ignores_remainder unit_bias_tensors 2 1 (1 # 2) false
              ["forward"] "custom_cnn" self [[5; 7]%Z] [[5; 9]%Z] [0%Z] [[6; 8]%Z]
              Hinit eq_refl eq_refl)
    as (delta & _ & Hadd & Hother).
  - vm_compute in Hinit. by injection Hinit as <-.
  - by exists self, delta.
Defined.


(* --------------------------------------------------------------------- *)
(** ** The reward head                                                    *)
(* --------------------------------------------------------------------- *)

Section Reward.
Context `{Tensors}.
Import ForwardInverse.

(** The reward net is [Linear(k, 2), ReLU, Linear(2, 2), ReLU, Linear(2, 2)]
    with [k = int(state_dim * ratio)], whatever [action_dim] is; its
    output, when it has one, has width 2. *)
Lemma rewardModel_unfold (sd ad : Z) (r : Q) (cuda : bool) (losses : list string)
    (mt : string) (self : SRLModules) :
  init sd ad r cuda (Some losses) mt = Ok self ->
  existsb (String.eqb "reward") losses = true ->
  exists l0 l2 l4,
    reward_net self = Some (l0, l2, l4) /\
    (in_features l0 = sliced_width sd r /\ out_features l0 = 2%Z) /\
    (in_features l2 = 2%Z /\ out_features l2 = 2%Z) /\
    (in_features l4 = 2%Z /\ out_features l4 = 2%Z) /\
    forall state,
      rewardModel self state
      = (do x1 <- linear l0 state;
         do x3 <- linear l2 (ReLU x1);
         linear l4 (ReLU x3)).
Proof.
  intros Hinit Hrew.
  destruct (init_heads _ _ _ _ _ _ _ Hinit) as (_ & _ & Hr).
  destruct (Hr Hrew) as (l0 & l2 & l4 & H0 & H2 & H4 & Hnet & _).
  apply nn_Linear_inv in H0 as (H0 & _). apply nn_Linear_inv in H2 as (H2 & _).
  apply nn_Linear_inv in H4 as (H4 & _).
  exists l0, l2, l4. split; [done|].
  split; [by rewrite H0|]. split; [by rewrite H2|]. split; [by rewrite H4|].
  intros state. unfold rewardModel. by rewrite Hnet.
Qed.

(** On a batch of full width the reward head works exactly when the
    sliced width is the whole state. *)
Lemma rewardModel_full_state (sd ad : Z) (r : Q) (cuda : bool) (losses : list string)
    (mt : string) (self : SRLModules) (state : tensor) :
  init sd ad r cuda (Some losses) mt = Ok self ->
  existsb (String.eqb "reward") losses = true ->
  has_width sd state -> state <> [] ->
  (sliced_width sd r = sd ->
   exists out, rewardModel self state = Ok out /\
     has_width 2 out /\ length out = length state) /\
  (sliced_width sd r <> sd ->
   rewardModel self state = Raise (RuntimeError "size mismatch")).
Proof.
  intros Hinit Hrew Hw Hne.
  destruct (rewardModel_unfold _ _ _ _ _ _ _ Hinit Hrew)
    as (l0 & l2 & l4 & _ & [Hi0 Ho0] & [Hi2 Ho2] & [Hi4 Ho4] & Hformula).
  rewrite Hformula. split.
  - intros Hk. rewrite linear_ok by (by rewrite Hi0, Hk). cbn [rbind].
    destruct (linear_row_width l0 state) as [Hw1 Hl1]; [lia|].
    rewrite Ho0 in Hw1.
    rewrite linear_ok by (rewrite Hi2; by apply ReLU_width). cbn [rbind].
    destruct (linear_row_width l2 (ReLU (linear_row l0 <$> state))) as [Hw3 Hl3]; [lia|].
    rewrite Ho2 in Hw3.
    rewrite linear_ok by (rewrite Hi4; by apply ReLU_width).
    destruct (linear_row_width l4 (ReLU (linear_row l2 <$> ReLU (linear_row l0 <$> state))))
      as [Hw5 Hl5]; [lia|].
    rewrite Ho4 in Hw5. eexists. split; [done|]. split; [done|].
    rewrite Hl5. unfold ReLU. by rewrite !length_fmap.
  - intros Hk. destruct (linear l0 state) as [x1|e] eqn:Hl0.
    + apply linear_inv in Hl0 as [Hw0 _]. rewrite Hi0 in Hw0.
      destruct state as [|row state]; [done|].
      unfold has_width in *. apply Forall_cons in Hw as [Hrow _].
      apply Forall_cons in Hw0 as [Hrow0 _]. lia.
    + unfold linear in Hl0. by destruct (has_widthb _ _); simplify_eq.
Qed.

(** C8, at [state_dim = 4] and [ratio = 0.5]: the first layer of the reward
    net is built for 2 inputs, [rewardModel] hands it the 4 columns of the
    state, and the call is rejected. *)
Theorem C8_rewardModel_rejects_full_state (ad : Z) (a b c d : num) :
  exists self l0 l2 l4,
    init 4 ad (1 # 2) false (Some ["reward"]) "custom_cnn" = Ok self /\
    reward_net self = Some (l0, l2, l4) /\
    in_features l0 = 2%Z /\
    has_width 4 [[a; b; c; d]] /\
    rewardModel self [[a; b; c; d]] = Raise (RuntimeError "size mismatch").
Proof.
  do 4 eexists. split; [reflexivity|]. split; [reflexivity|].
  split; [reflexivity|]. split; [by repeat constructor|]. reflexivity.
Qed.

End Reward.

(* --------------------------------------------------------------------- *)
(** ** Unknown architectures and missing heads                            *)
(* --------------------------------------------------------------------- *)

Section Selectors.
Context `{Backend}.

(** The trainer rejects a model type other than ["resnet"] and ["mlp"],
    and names it; ["resnet"] and ["mlp"] are accepted. *)
Lemma Supervised_init_unknown (g : Supervised.globals) (sd : Z) (mt lf : string)
    (seed : Z) (lr : Q) (cuda : bool) :
  mt <> "resnet" -> mt <> "mlp" ->
  Supervised.init g sd mt lf seed lr cuda
  = Raise (ValueError ("Unknown model: " +:+ mt)).
Proof.
  intros Hr%String.eqb_neq Hm%String.eqb_neq.
  unfold Supervised.init. by rewrite Hr, Hm.
Qed.

Lemma Supervised_init_known (g : Supervised.globals) (sd : Z) (mt lf : string)
    (seed : Z) (lr : Q) (cuda : bool) :
  mt = "resnet" \/ mt = "mlp" ->
  exists self, Supervised.init g sd mt lf seed lr cuda = Ok self.
Proof. intros [-> | ->]; cbn; eauto. Qed.

End Selectors.

Section MissingParts.
Context `{Tensors}.
Import ForwardInverse.

(** Without a head, each of the three calls stops at the first attribute
    it reads. *)
Lemma no_head_calls_fail (self : SRLModules) :
  head_attrs self = (None, None, None, None, None, None) ->
  (forall state action,
     forwardModel self state action = Raise (AttributeError "state_dim")) /\
  (forall state next_state,
     inverseModel self state next_state = Raise (AttributeError "inverse_net")) /\
  (forall state, rewardModel self state = Raise (AttributeError "reward_net")).
Proof.
  unfold head_attrs. intros [= Hsd Had Hr Hf Hi Hrw].
  unfold forwardModel, inverseModel, rewardModel.
  rewrite Hsd, Hi, Hrw. done.
Qed.

(** A model type outside the five known ones builds no encoder: without
    [cuda] the constructor returns an object whose [nn] is not set. *)
Lemma SRLModules_init_unknown (sd ad : Z) (r : Q) (mt : string) :
  mt <> "custom_cnn" -> mt <> "linear" -> mt <> "mlp" -> mt <> "resnet" ->
  mt <> "ae" ->
  exists self, init sd ad r false (Some []) mt = Ok self /\ nn_ self = None /\
    init sd ad r true (Some []) mt = Raise (AttributeError "nn").
Proof.
  intros H1%String.eqb_neq H2%String.eqb_neq H3%String.eqb_neq
         H4%String.eqb_neq H5%String.eqb_neq.
  unfold init, choose_architecture. cbn.
  rewrite H1, H2, H3, H4, H5. cbn. eauto.
Qed.

(** C4, for [SRLModules]: the model type ["quux"] is none of the five known
    ones, and the constructor returns an object all the same, with no
    encoder in [nn]; asked for [cuda] it stops at [self.nn.cuda()] with an
    attribute error that does not name the model. *)
Theorem C4_SRLModules_accepts_unknown_model (sd ad : Z) (r : Q) :
  init sd ad r false (Some []) "quux"
  = Ok {| model_type := "quux"; state_dim := None; action_dim := None;
          ratio := None; forward_net := None; inverse_net := None;
          reward_net := None; nn_ := None |} /\
  init sd ad r true (Some []) "quux" = Raise (AttributeError "nn").
Proof. done. Qed.

(** C9: with [losses] left to its default [None] the constructor stops at
    ["forward" not in losses]; with an empty list it returns a plain
    encoder, on which the three head calls fail on a missing attribute. *)
Theorem C9_absent_losses_rejected (sd ad : Z) (r : Q) (cuda : bool) (mt : string) :
  init sd ad r cuda None mt
  = Raise (TypeError "argument of type 'NoneType' is not iterable") /\
  exists self,
    init sd ad r false (Some []) mt = Ok self /\
    head_attrs self = (None, None, None, None, None, None) /\
    (forall state action,
       forwardModel self state action = Raise (AttributeError "state_dim")) /\
    (forall state next_state,
       inverseModel self state next_state = Raise (AttributeError "inverse_net")) /\
    (forall state, rewardModel self state = Raise (AttributeError "reward_net")).
Proof.
  split; [done|].
  destruct (init sd ad r false (Some []) mt) as [self|] eqn:Hinit; [|done].
  exists self. split; [done|].
  assert (head_attrs self = (None, None, None, None, None, None)) as Hnone
    by (by eapply init_no_head).
  split; [done|]. by apply no_head_calls_fail.
Qed.

End MissingParts.

(* ===================================================================== *)
(** * Part III: further properties of the code                            *)
(* ===================================================================== *)

(** ** [learn]: the files, the figures, a later run *)

Section LearnEffects.
Context `{Backend}.
Variables (g : Supervised.globals) (self : Supervised.SupervisedLearning).
Variables (files : gmap string params) (true_states : list row).

Local Abbreviation path := (Supervised.best_model_path (Supervised.log_folder self)).
Local Abbreviation body := (Supervised.epoch g self true_states).
Local Abbreviation begin := (Supervised.start self files).

Lemma epoch_plotted (r r1 : Supervised.run) (e : nat) :
  body r e = Ok r1 ->
  Supervised.plotted r1
  = if Supervised.DISPLAY_PLOTS g
    then Supervised.plotted r
         ++ [Supervised.predStatesWithDataLoader (Supervised.cur_model r1)
               (Supervised.data_loader true_states)]
    else Supervised.plotted r.
Proof.
  unfold Supervised.epoch, Supervised.epoch_body.
  destruct (foldl train_step _ _) as [m o].
  destruct (fdiv_len (Finite 0) _) as [?|]; cbn [rbind]; [|done].
  destruct (Supervised.validation_loss m _) as [v|]; cbn [rbind]; [|done].
  by destruct (flt v (Supervised.best_error r)); intros [= <-].
Qed.

Lemma loop_plotted (r : Supervised.run) :
  for_each body (seq 0 (Supervised.N_EPOCHS g)) begin = Ok r ->
  Supervised.plotted r
  = if Supervised.DISPLAY_PLOTS g
    then (fun r' => Supervised.predStatesWithDataLoader (Supervised.cur_model r')
                      (Supervised.data_loader true_states))
           <$> iterates body (seq 0 (Supervised.N_EPOCHS g)) begin
    else [].
Proof.
  intros Hloop.
  apply (for_each_invariant body
           (fun hist s =>
              Supervised.plotted s
              = if Supervised.DISPLAY_PLOTS g
                then (fun r' => Supervised.predStatesWithDataLoader
                                  (Supervised.cur_model r')
                                  (Supervised.data_loader true_states)) <$> hist
                else [])) with (hist := []) (s := begin); [| |done].
  - intros hist s x s' Hinv Hbody. rewrite (epoch_plotted _ _ _ Hbody), Hinv.
    destruct (Supervised.DISPLAY_PLOTS g); [|done]. by rewrite fmap_app.
  - by destruct (Supervised.DISPLAY_PLOTS g).
Qed.

Lemma loop_other_files (r : Supervised.run) (other : string) :
  for_each body (seq 0 (Supervised.N_EPOCHS g)) begin = Ok r ->
  other <> path -> Supervised.disk r !! other = files !! other.
Proof.
  intros Hloop Hother.
  destruct (loop_invariant g self files true_states r Hloop)
    as [_ [[_ ->]|(j & rj & _ & _ & ->)]]; [done|].
  by rewrite lookup_insert_ne.
Qed.

End LearnEffects.

(** X1: [learn] writes one file only.  When it returns, every path of the
    disk other than [<log_folder>/srl_supervised_model.pth] holds what it
    held before the call. *)
Theorem learn_writes_only_the_checkpoint `{Backend}
    (g : Supervised.globals) (self : Supervised.SupervisedLearning)
    (files : gmap string params) (true_states : list row)
    (out : Supervised.outcome) (other : string) :
  Supervised.learn g self files true_states = Ok out ->
  other <> Supervised.best_model_path (Supervised.log_folder self) ->
  Supervised.disk (Supervised.final out) !! other = files !! other.
Proof.
  intros Hlearn Hother.
  destruct (learn_inv _ _ _ _ _ Hlearn) as (r & best & Hloop & _ & _ & _ & _ & ->).
  by eapply loop_other_files.
Qed.

Lemma learn_writes_only_the_checkpoint_witness :
  exists out,
    @Supervised.learn counting_backend three_epochs counting_trainer
      {[ "logs/exp_config.json" := 5 ]} four_states = Ok out /\
    Supervised.disk (Supervised.final out) !! "logs/exp_config.json" = Some 5.
Proof.
  destruct (@Supervised.learn counting_backend three_epochs counting_trainer
              {[ "logs/exp_config.json" := 5 ]} four_states)
    as [out|e] eqn:Hl; [|by vm_compute in Hl].
  exists out. split; [done|].
  pose proof (@learn_writes_only_the_checkpoint counting_backend _ _ _ _ _
                "logs/exp_config.json" Hl ltac:(done)) as Hother.
  etrans; [exact Hother|]. by vm_compute.
Defined.

(** X2: the checkpoint a run leaves is the one a later run starts from.
    After a call of [learn] that returned, a call with no epoch, on the
    same trainer and data and on the files the first call left, returns
    the same representation and writes nothing. *)
Theorem learn_again_without_epoch `{Backend}
    (g g0 : Supervised.globals) (self : Supervised.SupervisedLearning)
    (files : gmap string params) (true_states : list row)
    (out : Supervised.outcome) :
  Supervised.learn g self files true_states = Ok out ->
  Supervised.N_EPOCHS g0 = 0 ->
  exists out',
    Supervised.learn g0 self (Supervised.disk (Supervised.final out)) true_states
      = Ok out' /\
    Supervised.returned out' = Supervised.returned out /\
    Supervised.disk (Supervised.final out') = Supervised.disk (Supervised.final out).
Proof.
  intros Hlearn Hzero.
  destruct (learn_inv _ _ _ _ _ Hlearn) as (r & best & _ & Hfile & Hret & _ & _ & Hdisk).
  rewrite (load_after_loop g0 self _ true_states
             (Supervised.start self (Supervised.disk (Supervised.final out))))
    by (by rewrite Hzero).
  cbn [Supervised.start Supervised.disk]. rewrite Hdisk, Hfile.
  eexists. split; [done|]. by rewrite Hret.
Qed.

Lemma learn_again_without_epoch_witness :
  exists out out',
    @Supervised.learn counting_backend three_epochs counting_trainer ∅ four_states
      = Ok out /\
    @Supervised.learn counting_backend no_epoch counting_trainer
      (Supervised.disk (Supervised.final out)) four_states = Ok out' /\
    Supervised.returned out' = Supervised.returned out.
Proof.
  destruct (@Supervised.learn counting_backend three_epochs counting_trainer
              ∅ four_states) as [out|e] eqn:Hl; [|by vm_compute in Hl].
  destruct (@learn_again_without_epoch counting_backend three_epochs no_epoch
              counting_trainer ∅ four_states out Hl eq_refl)
    as (out' & Hl' & Hret & _).
  by exists out, out'.
Defined.

(** X3: the figures.  With [DISPLAY_PLOTS] one figure is drawn per epoch,
    and the figure of an epoch shows, in the order of the samples, the
    predictions of the model that epoch reached for all [N] samples;
    without [DISPLAY_PLOTS] nothing is drawn. *)
Theorem learn_figures `{Backend}
    (g : Supervised.globals) (self : Supervised.SupervisedLearning)
    (files : gmap string params) (true_states : list row)
    (out : Supervised.outcome) :
  Supervised.learn g self files true_states = Ok out ->
  let runs := iterates (Supervised.epoch g self true_states)
                (seq 0 (Supervised.N_EPOCHS g)) (Supervised.start self files) in
  length runs = Supervised.N_EPOCHS g /\
  Supervised.plotted (Supervised.final out)
  = if Supervised.DISPLAY_PLOTS g
    then (fun r => forward (Supervised.cur_model r) <$> seq 0 (length true_states))
           <$> runs
    else [].
Proof.
  intros Hlearn runs.
  assert (exists r, for_each (Supervised.epoch g self true_states)
                      (seq 0 (Supervised.N_EPOCHS g)) (Supervised.start self files)
                    = Ok r /\
                    Supervised.plotted (Supervised.final out) = Supervised.plotted r)
    as (r & Hloop & ->).
  { revert Hlearn. unfold Supervised.learn, Supervised.load.
    destruct (for_each _ _ _) as [r|]; cbn [rbind]; [|done].
    destruct (Supervised.disk r !! _); cbn [rbind]; [|done].
    intros [= <-]. by exists r. }
  split.
  - unfold runs. erewrite for_each_iterates_length by done. apply length_seq.
  - rewrite (loop_plotted g self files true_states r Hloop).
    destruct (Supervised.DISPLAY_PLOTS g); [|done].
    apply list_fmap_ext. intros i r' _. apply predStates_data_loader.
Qed.

Lemma learn_figures_witness :
  exists out,
    @Supervised.learn counting_backend three_epochs counting_trainer ∅ four_states
      = Ok out /\
    Supervised.plotted (Supervised.final out)
    = [[100; 101; 102; 103]; [200; 201; 202; 203]; [300; 301; 302; 303]].
Proof.
  destruct (@Supervised.learn counting_backend three_epochs counting_trainer
              ∅ four_states) as [out|e] eqn:Hl; [|by vm_compute in Hl].
  exists out. split; [done|].
  destruct (@learn_figures counting_backend _ _ _ _ _ Hl) as [_ ->].
  by vm_compute.
Defined.

(** ** [learn]: samples and targets *)

Section Loaders.
Context `{Backend}.

(** Indexing the sample indices and the targets with the same positions
    gives pairs of an index and its own target. *)
Lemma safe_indexing_pairs (true_states : list row) (ind : list nat) :
  zip (Supervised.safe_indexing (seq 0 (length true_states)) ind)
      (Supervised.safe_indexing true_states ind)
  = omap (fun i => (fun y => (i, y)) <$> true_states !! i) ind.
Proof.
  unfold Supervised.safe_indexing.
  induction ind as [|i ind IH]; [done|]. cbn [omap list_omap].
  fold (omap (fun i => seq 0 (length true_states) !! i) ind).
  fold (omap (fun i => true_states !! i) ind).
  fold (omap (fun i => (fun y => (i, y)) <$> true_states !! i) ind).
  destruct (decide (i < length true_states)) as [Hi|Hi].
  - rewrite lookup_seq_lt by done.
    destruct (lookup_lt_is_Some_2 true_states i Hi) as [y ->].
    cbn. by rewrite IH.
  - rewrite (proj2 (lookup_ge_None (seq 0 (length true_states)) i))
      by (rewrite length_seq; lia).
    rewrite (proj2 (lookup_ge_None true_states i)) by lia.
    cbn. by rewrite IH.
Qed.

Lemma safe_indexing_length {A : Type} (a : list A) (ind : list nat) :
  Forall (fun i => i < length a) ind ->
  length (Supervised.safe_indexing a ind) = length ind.
Proof.
  unfold Supervised.safe_indexing.
  induction 1 as [|i ind Hi _ IH]; [done|]. cbn [omap list_omap].
  destruct (lookup_lt_is_Some_2 a i Hi) as [y ->]. cbn.
  fold (omap (fun i => a !! i) ind). by rewrite IH.
Qed.

End Loaders.

(** X4: the three loaders of [learn] keep every sample with its own
    target.  A pair (index, target) that the training loader, the
    validation loader or the full loader holds is a valid index together
    with the row of [true_states] at that index. *)
Theorem loaders_pair_index_and_target `{Backend}
    (self : Supervised.SupervisedLearning) (true_states : list row)
    (i : nat) (y : row) :
  (i, y) ∈ Supervised.samples (Supervised.train_loader self true_states) \/
  (i, y) ∈ Supervised.samples (Supervised.val_loader self true_states) \/
  (i, y) ∈ Supervised.samples (Supervised.data_loader true_states) ->
  true_states !! i = Some y.
Proof.
  unfold Supervised.train_loader, Supervised.val_loader, Supervised.data_loader,
    Supervised.split, Supervised.train_test_split, Supervised.new_loader,
    Supervised.x_indices.
  cbn [Supervised.samples]. rewrite !safe_indexing_pairs.
  intros [Hin|[Hin|Hin]].
  - apply list_elem_of_omap in Hin as (j & _ & Hj).
    destruct (true_states !! j) eqn:Hy; by simplify_eq/=.
  - apply list_elem_of_omap in Hin as (j & _ & Hj).
    destruct (true_states !! j) eqn:Hy; by simplify_eq/=.
  - apply list_elem_of_lookup in Hin as [j Hj].
    apply lookup_zip_with_Some in Hj as (i' & y' & [= -> ->] & Hseq & Hy).
    apply lookup_seq in Hseq as [-> _]. done.
Qed.

Lemma loaders_pair_index_and_target_witness :
  four_states !! 1 = Some 11.
Proof.
  apply (@loaders_pair_index_and_target counting_backend counting_trainer
           four_states 1 11).
  left. vm_compute. apply list_elem_of_here.
Defined.

(** ** [learn]: when it returns *)

Lemma n_batches_pos (len bs : nat) : 0 < len -> 0 < bs -> 0 < n_batches len bs.
Proof.
  intros Hlen Hbs. unfold n_batches. apply Nat.div_str_pos. lia.
Qed.

Lemma fdiv_len_finite (q : Q) (n : nat) :
  0 < n -> exists q', fdiv_len (Finite q) n = Ok (Finite q').
Proof. destruct n; [lia|]. cbn. eauto. Qed.

Lemma for_each_total {S X : Type} (body : S -> X -> result S) (xs : list X) (s : S) :
  (forall s x, exists s', body s x = Ok s') -> exists s', for_each body xs s = Ok s'.
Proof.
  intros Hbody. revert s. induction xs as [|x xs IH]; intros s; cbn [for_each].
  - eauto.
  - destruct (Hbody s x) as [s1 ->]. cbn [rbind]. apply IH.
Qed.

Section Returns.
Context `{Backend}.
Variables (g : Supervised.globals) (self : Supervised.SupervisedLearning).
Variables (files : gmap string params) (true_states : list row).
Hypothesis permutation_permutes : forall s n, permutation s n ≡ₚ seq 0 n.
Hypothesis shuffle_length : forall e (l : list (nat * row)), length (shuffle e l) = length l.
Hypothesis criterion_finite : forall m b, is_finite (criterion m b) = true.
Hypothesis two_samples : 2 <= length true_states.
Hypothesis batch_size_pos : 1 <= Supervised.batch_size self.

Lemma sum_of_losses_finite (m : params) (bs : list (list (nat * row))) (q : Q) :
  exists q', foldl (fun acc b => fadd acc (criterion m b)) (Finite q) bs = Finite q'.
Proof.
  revert q. induction bs as [|b bs IH]; intros q; cbn [foldl]; [eauto|].
  pose proof (criterion_finite m b) as Hb.
  destruct (criterion m b) as [c| | |]; try done. cbn [fadd]. apply IH.
Qed.

Lemma split_sizes :
  let k := (33 * length true_states + 99) / 100 in
  1 <= k < length true_states /\
  length (Supervised.samples (Supervised.train_loader self true_states))
  = length true_states - k /\
  length (Supervised.samples (Supervised.val_loader self true_states)) = k.
Proof.
  intros k.
  assert (1 <= k < length true_states) as Hk.
  { unfold k. split.
    - apply Nat.div_le_lower_bound; lia.
    - apply Nat.Div0.div_lt_upper_bound. lia. }
  split; [done|].
  unfold Supervised.train_loader, Supervised.val_loader, Supervised.split,
    Supervised.train_test_split, Supervised.new_loader, Supervised.x_indices.
  cbn [Supervised.samples]. rewrite length_seq.
  unfold Supervised.n_test_of. rewrite Qceiling_33_percent. fold k.
  pose proof (permutation_permutes (Supervised.seed self) (length true_states)) as Hp.
  pose proof (permutation_in_range _ _ Hp) as Hr.
  assert (length (permutation (Supervised.seed self) (length true_states))
          = length true_states) as Hlen by (rewrite Hp; apply length_seq).
  rewrite !length_zip_with, !safe_indexing_length, ?length_take, ?length_drop;
    rewrite ?length_seq; auto using Forall_take, Forall_drop.
  lia.
Qed.

Lemma epoch_returns (r : Supervised.run) (e : nat) :
  exists r1 q,
    Supervised.epoch g self true_states r e = Ok r1 /\
    Supervised.loss_of self true_states r1 = Ok (Finite q).
Proof.
  destruct split_sizes as (Hk & Htrain & Hval).
  unfold Supervised.epoch, Supervised.epoch_body, Supervised.loss_of.
  destruct (foldl train_step _ _) as [m o].
  destruct (fdiv_len_finite 0
              (Supervised.loader_len
                 (Supervised.resetAndShuffle e
                    (Supervised.train_loader self true_states))))
    as [q0 ->].
  { unfold Supervised.loader_len, Supervised.resetAndShuffle.
    assert (Supervised.is_training (Supervised.train_loader self true_states) = true)
      as -> by (unfold Supervised.train_loader, Supervised.split;
                by destruct (Supervised.train_test_split _ _ _ _) as [[[??]?]?]).
    cbn [Supervised.samples Supervised.loader_batch_size].
    assert (Supervised.loader_batch_size (Supervised.train_loader self true_states)
            = Supervised.batch_size self)
      as -> by (unfold Supervised.train_loader, Supervised.split;
                by destruct (Supervised.train_test_split _ _ _ _) as [[[??]?]?]).
    apply n_batches_pos; [|lia]. rewrite shuffle_length, Htrain. lia. }
  cbn [rbind].
  assert (exists q, Supervised.validation_loss m
                      (Supervised.val_loader self true_states) = Ok (Finite q))
    as [q Hq].
  { unfold Supervised.validation_loss.
    destruct (sum_of_losses_finite m
                (Supervised.batches (Supervised.val_loader self true_states)) 0)
      as [q' ->].
    apply fdiv_len_finite. unfold Supervised.loader_len.
    assert (Supervised.loader_batch_size (Supervised.val_loader self true_states)
            = Supervised.TEST_BATCH_SIZE)
      as -> by (unfold Supervised.val_loader, Supervised.split;
                by destruct (Supervised.train_test_split _ _ _ _) as [[[??]?]?]).
    apply n_batches_pos; [rewrite Hval; lia|]. unfold Supervised.TEST_BATCH_SIZE. lia. }
  rewrite Hq. cbn [rbind].
  destruct (flt (Finite q) (Supervised.best_error r)); eexists _, q; by split.
Qed.

Lemma learn_returns_aux :
  1 <= Supervised.N_EPOCHS g ->
  exists out, Supervised.learn g self files true_states = Ok out.
Proof.
  intros Hepochs.
  destruct (for_each_total (Supervised.epoch g self true_states)
              (seq 0 (Supervised.N_EPOCHS g)) (Supervised.start self files))
    as [r Hloop].
  { intros s x. destruct (epoch_returns s x) as (s' & _ & Hs & _). eauto. }
  rewrite (load_after_loop g self files true_states r Hloop).
  enough (is_Some (Supervised.disk r
            !! Supervised.best_model_path (Supervised.log_folder self)))
    as [best ->] by eauto.
  destruct (Supervised.N_EPOCHS g) as [|n]; [lia|].
  cbn [seq for_each] in Hloop.
  destruct (epoch_returns (Supervised.start self files) 0) as (r1 & q & Hbody & Hloss).
  rewrite Hbody in Hloop. cbn [rbind] in Hloop.
  eapply (for_each_preserves (Supervised.epoch g self true_states)
            (fun s => is_Some (Supervised.disk s
               !! Supervised.best_model_path (Supervised.log_folder self))));
    [| |exact Hloop].
  - intros s x s' Hs Hstep. by eapply epoch_keeps_file.
  - destruct (epoch_checkpoint g self true_states _ _ _ Hbody) as (v & Hv & Hcase).
    assert (v = Finite q) as -> by congruence.
    cbn in Hcase. destruct Hcase as [_ ->]. rewrite lookup_insert_eq. eauto.
Qed.

End Returns.



(* --------------------------------------------------------------------- *)
(** ** [SRLModules.__init__]: heads and encoder                           *)
(* --------------------------------------------------------------------- *)

Lemma existsb_eqb_elem_of (x : string) (l : list string) :
  existsb (String.eqb x) l = true <-> x ∈ l.
Proof.
  rewrite existsb_exists. split.
  - intros (y & Hin%list_elem_of_In & ->%String.eqb_eq). done.
  - intros Hin. exists x. split; [by apply list_elem_of_In|apply String.eqb_refl].
Qed.

Lemma py_int_nonneg (q : Q) : (0 <= q)%Q -> (0 <= py_int q)%Z.
Proof.
  destruct q as [n d]. unfold Qle, py_int. cbn [Qnum Qden]. intros Hn.
  apply Z.quot_pos; lia.
Qed.

Section Construction2.
Context `{Tensors}.
Import ForwardInverse.

Lemma sliced_width_nonneg (sd : Z) (r : Q) :
  (0 <= sd)%Z -> (0 <= r)%Q -> (0 <= sliced_width sd r)%Z.
Proof.
  intros Hsd Hr. apply py_int_nonneg. apply Qmult_le_0_compat; [|done].
  unfold Qle. cbn. lia.
Qed.

Lemma nn_Linear_ok (name : string) (n_in n_out : Z) :
  (0 <= n_in)%Z -> (0 <= n_out)%Z ->
  nn_Linear name n_in n_out
  = Ok {| in_features := n_in; out_features := n_out;
          weight := draw_weight name; bias := draw_bias name |}.
Proof.
  intros Hin Hout. unfold nn_Linear.
  by rewrite (proj2 (Z.ltb_ge n_in 0)), (proj2 (Z.ltb_ge n_out 0)).
Qed.

Lemma initForwardNet_keeps (sd ad : Z) (r : Q) (self self' : SRLModules) :
  initForwardNet sd ad r self = Ok self' ->
  model_type self' = model_type self /\ nn_ self' = nn_ self.
Proof.
  unfold initForwardNet. destruct (nn_Linear _ _ _); cbn [rbind]; [|done].
  by intros [= <-].
Qed.

Lemma initInverseNet_keeps (sd ad : Z) (r : Q) (self self' : SRLModules) :
  initInverseNet sd ad r self = Ok self' ->
  model_type self' = model_type self /\ nn_ self' = nn_ self.
Proof.
  unfold initInverseNet. destruct (nn_Linear _ _ _); cbn [rbind]; [|done].
  by intros [= <-].
Qed.

Lemma initRewardNet_keeps (sd ad : Z) (r : Q) (self self' : SRLModules) :
  initRewardNet sd ad r self = Ok self' ->
  model_type self' = model_type self /\ nn_ self' = nn_ self.
Proof.
  unfold initRewardNet.
  destruct (nn_Linear "reward_net.0" _ _); cbn [rbind]; [|done].
  destruct (nn_Linear "reward_net.2" _ _); cbn [rbind]; [|done].
  destruct (nn_Linear "reward_net.4" _ _); cbn [rbind]; [|done].
  by intros [= <-].
Qed.

(** [__init__] in two stages: the heads, on an object that keeps the model
    type and has no encoder yet, then the encoder and the device. *)
Lemma init_stages (sd ad : Z) (r : Q) (cuda : bool) (losses : list string)
    (mt : string) (self : SRLModules) :
  init sd ad r cuda (Some losses) mt = Ok self ->
  exists s, model_type s = mt /\ nn_ s = None /\
    (if cuda then move_to_cuda (choose_architecture sd cuda s)
     else Ok (choose_architecture sd cuda s)) = Ok self.
Proof.
  unfold init, contains. cbn [rbind].
  destruct (existsb (String.eqb "forward") losses),
           (existsb (String.eqb "inverse") losses),
           (existsb (String.eqb "reward") losses);
    cbn [negb andb when rbind];
    repeat match goal with
      | |- context [initForwardNet ?a ?b ?c ?obj] =>
          destruct (initForwardNet a b c obj) as [?self|] eqn:?Hf; cbn [rbind]; [|done];
          apply initForwardNet_keeps in Hf as [?Hm ?Hn]
      | |- context [initInverseNet ?a ?b ?c ?obj] =>
          destruct (initInverseNet a b c obj) as [?self|] eqn:?Hi; cbn [rbind]; [|done];
          apply initInverseNet_keeps in Hi as [?Hm ?Hn]
      | |- context [initRewardNet ?a ?b ?c ?obj] =>
          destruct (initRewardNet a b c obj) as [?self|] eqn:?Hr; cbn [rbind]; [|done];
          apply initRewardNet_keeps in Hr as [?Hm ?Hn]
      end;
    intros Htail; eexists; (split; [|split; [|exact Htail]]);
    cbn in *; congruence.
Qed.

(** With sizes that are not negative the heads are always built. *)
Lemma init_heads_built (sd ad : Z) (r : Q) (cuda : bool) (losses : list string)
    (mt : string) :
  (0 <= sd)%Z -> (0 <= ad)%Z -> (0 <= r)%Q ->
  exists s, model_type s = mt /\ nn_ s = None /\
    init sd ad r cuda (Some losses) mt
    = (if cuda then move_to_cuda (choose_architecture sd cuda s)
       else Ok (choose_architecture sd cuda s)).
Proof.
  intros Hsd Had Hr. pose proof (sliced_width_nonneg sd r Hsd Hr) as Hk.
  unfold sliced_width in Hk.
  unfold init, contains. cbn [rbind].
  destruct (existsb (String.eqb "forward") losses),
           (existsb (String.eqb "inverse") losses),
           (existsb (String.eqb "reward") losses);
    cbn [negb andb when rbind];
    unfold initForwardNet, initInverseNet, initRewardNet;
    repeat (rewrite nn_Linear_ok by lia); cbn [rbind];
    eexists; (split; [|split; [|reflexivity]]); done.
Qed.

Lemma choose_architecture_nn (sd : Z) (cuda : bool) (s : SRLModules) :
  nn_ s = None ->
  is_Some (nn_ (choose_architecture sd cuda s))
  <-> model_type s ∈ ["custom_cnn"; "linear"; "mlp"; "resnet"; "ae"].
Proof.
  intros Hnone. unfold choose_architecture.
  repeat match goal with
    | |- context [String.eqb (model_type s) ?name] =>
        destruct (String.eqb_spec (model_type s) name) as [Heq|?];
          [rewrite Heq; cbn; split; [intros _; set_solver|eauto]|]
    end.
  rewrite Hnone. split; [by intros [? ?]|].
  rewrite !elem_of_cons, elem_of_nil. intros [?|[?|[?|[?|[?|[]]]]]]; done.
Qed.

Lemma move_to_cuda_nn (s self : SRLModules) :
  move_to_cuda s = Ok self -> is_Some (nn_ s) /\ is_Some (nn_ self).
Proof.
  unfold move_to_cuda. destruct (nn_ s) as [e|]; cbn; [|done].
  intros [= <-]. cbn. eauto.
Qed.

(** The encoder is set exactly for the five known model types. *)
Lemma init_nn (sd ad : Z) (r : Q) (cuda : bool) (losses : list string)
    (mt : string) (self : SRLModules) :
  init sd ad r cuda (Some losses) mt = Ok self ->
  model_type self = mt /\
  (is_Some (nn_ self) <-> mt ∈ ["custom_cnn"; "linear"; "mlp"; "resnet"; "ae"]) /\
  (cuda = true -> is_Some (nn_ self)).
Proof.
  intros (s & <- & Hnone & Htail)%init_stages.
  pose proof (choose_architecture_nn sd cuda s Hnone) as Hchoose.
  assert (model_type (choose_architecture sd cuda s) = model_type s) as Hmt.
  { unfold choose_architecture. by repeat destruct (String.eqb _ _). }
  destruct cuda.
  - pose proof (move_to_cuda_nn _ _ Htail) as [Hs Hself].
    split; [|split].
    + revert Htail. unfold move_to_cuda.
      destruct (nn_ (choose_architecture sd true s)); cbn; [|done].
      by intros [= <-].
    + split; [intros _; by apply Hchoose|done].
    + done.
  - injection Htail as <-. split; [done|]. split; [done|]. done.
Qed.

End Construction2.

Section Construction3.
Context `{Tensors}.
Import ForwardInverse.

(** A head that was not requested is not there. *)
Lemma init_heads_absent (sd ad : Z) (r : Q) (cuda : bool) (losses : list string)
    (mt : string) (self : SRLModules) :
  init sd ad r cuda (Some losses) mt = Ok self ->
  (existsb (String.eqb "forward") losses = false -> forward_net self = None) /\
  (existsb (String.eqb "inverse") losses = false -> inverse_net self = None) /\
  (existsb (String.eqb "reward") losses = false -> reward_net self = None).
Proof.
  unfold init, contains. cbn [rbind].
  destruct (existsb (String.eqb "forward") losses),
           (existsb (String.eqb "inverse") losses),
           (existsb (String.eqb "reward") losses);
    cbn [negb andb when rbind];
    repeat match goal with
      | |- context [initForwardNet ?a ?b ?c ?obj] =>
          destruct (initForwardNet a b c obj) as [?self|] eqn:?Hf; cbn [rbind]; [|done];
          apply initForwardNet_inv in Hf as (?l & ?Hl & ?Ha)
      | |- context [initInverseNet ?a ?b ?c ?obj] =>
          destruct (initInverseNet a b c obj) as [?self|] eqn:?Hi; cbn [rbind]; [|done];
          apply initInverseNet_inv in Hi as (?l & ?Hl & ?Ha)
      | |- context [initRewardNet ?a ?b ?c ?obj] =>
          destruct (initRewardNet a b c obj) as [?self|] eqn:?Hr; cbn [rbind]; [|done];
          apply initRewardNet_inv in Hr as (?l & ?l & ?l & ?Hl & ?Hl & ?Hl & ?Ha)
      end;
    intros Htail%init_tail_heads;
    unfold head_attrs in *; simplify_eq; cbn in *;
    (split; [|split]); intros ?; try done; congruence.
Qed.

(** X6: the heads of an [SRLModules] object are exactly those its loss
    list asks for.  After a construction that returned, [forward_net] is
    set if and only if ["forward"] is in [losses], [inverse_net] if and
    only if ["inverse"] is, [reward_net] if and only if ["reward"] is, and
    [state_dim], [action_dim] and [ratio] are set if and only if at least
    one of the three is. *)
Theorem SRLModules_heads_as_requested (sd ad : Z) (r : Q) (cuda : bool)
    (losses : list string) (mt : string) (self : SRLModules) :
  init sd ad r cuda (Some losses) mt = Ok self ->
  (is_Some (forward_net self) <-> "forward" ∈ losses) /\
  (is_Some (inverse_net self) <-> "inverse" ∈ losses) /\
  (is_Some (reward_net self) <-> "reward" ∈ losses) /\
  (is_Some (state_dim self) /\ is_Some (action_dim self) /\ is_Some (ratio self)
   <-> "forward" ∈ losses \/ "inverse" ∈ losses \/ "reward" ∈ losses).
Proof.
  intros Hinit.
  destruct (init_heads _ _ _ _ _ _ _ Hinit) as (Hf & Hi & Hr).
  destruct (init_heads_absent _ _ _ _ _ _ _ Hinit) as (Hf' & Hi' & Hr').
  pose proof (init_no_head _ _ _ _ _ _ _ Hinit) as Hnone.
  rewrite <-!existsb_eqb_elem_of.
  split; [|split; [|split]].
  - destruct (existsb (String.eqb "forward") losses).
    + destruct (Hf eq_refl) as (l & _ & -> & _). split; eauto.
    + rewrite (Hf' eq_refl). split; [by intros [? ?]|done].
  - destruct (existsb (String.eqb "inverse") losses).
    + destruct (Hi eq_refl) as (l & _ & -> & _). split; eauto.
    + rewrite (Hi' eq_refl). split; [by intros [? ?]|done].
  - destruct (existsb (String.eqb "reward") losses).
    + destruct (Hr eq_refl) as (l0 & l2 & l4 & _ & _ & _ & -> & _). split; eauto.
    + rewrite (Hr' eq_refl). split; [by intros [? ?]|done].
  - destruct (existsb (String.eqb "forward") losses).
    { destruct (Hf eq_refl) as (l & _ & _ & -> & -> & ->). split; eauto. }
    destruct (existsb (String.eqb "inverse") losses).
    { destruct (Hi eq_refl) as (l & _ & _ & -> & -> & ->). split; eauto. }
    destruct (existsb (String.eqb "reward") losses).
    { destruct (Hr eq_refl) as (l0 & l2 & l4 & _ & _ & _ & _ & -> & -> & ->).
      split; eauto. }
    specialize (Hnone eq_refl eq_refl eq_refl). unfold head_attrs in Hnone.
    injection Hnone as -> _ _ _ _ _.
    split; [by intros [[? ?] _]|by intros [|[|]]].
Qed.


End Construction3.

Lemma SRLModules_heads_as_requested_witness :
  exists self,
    @ForwardInverse.init unit_bias_tensors 4 6 (1 # 2) false (Some ["inverse"; "reward"]) "resnet"
      = Ok self /\
    ~ is_Some (ForwardInverse.forward_net self) /\ is_Some (ForwardInverse.inverse_net self) /\
    is_Some (ForwardInverse.reward_net self).
Proof.
  destruct (@ForwardInverse.init unit_bias_tensors 4 6 (1 # 2) false (Some ["inverse"; "reward"])
              "resnet") as [self|] eqn:Hinit; [|done].
  destruct (@SRLModules_heads_as_requested unit_bias_tensors _ _ _ _ _ _ _ Hinit)
    as (Hf & Hi & Hr & _).
  exists self. split; [done|]. split; [|split].
  - rewrite Hf. rewrite !elem_of_cons, elem_of_nil. by intros [|[|]].
  - apply Hi. apply list_elem_of_here.
  - apply Hr. apply list_elem_of_further, list_elem_of_here.
Defined.


Section EncoderCalls.
Context `{Networks}.
Import ForwardInverse.

(** X8: where an unknown model type is found out.  An object that the
    constructor returned for a model type outside the five known ones has
    no encoder, and [forward] and [getStates] stop on every input with an
    attribute error on [nn]. *)
Theorem unknown_model_type_fails_at_first_use (sd ad : Z) (r : Q) (cuda : bool)
    (losses : list string) (mt : string) (self : SRLModules) (x : observation) :
  init sd ad r cuda (Some losses) mt = Ok self ->
  mt ∉ ["custom_cnn"; "linear"; "mlp"; "resnet"; "ae"] ->
  cuda = false /\
  Encoding.forward self x = Raise (AttributeError "nn") /\
  Encoding.getStates self x = Raise (AttributeError "nn").
Proof.
  intros Hinit Hunknown.
  destruct (init_nn _ _ _ _ _ _ _ Hinit) as (Hmt & Hnn & Hcuda).
  assert (nn_ self = None) as Hnone.
  { destruct (nn_ self) eqn:He; [|done]. destruct Hunknown. apply Hnn. eauto. }
  split.
  { destruct cuda; [|done]. destruct (Hcuda eq_refl) as [e He]. congruence. }
  unfold Encoding.getStates, Encoding.forward. rewrite Hnone. cbn.
  by destruct (String.eqb (model_type self) "ae").
Qed.

End EncoderCalls.

Lemma unknown_model_type_fails_at_first_use_witness :
  exists self,
    @ForwardInverse.init unit_bias_tensors 2 6 1 false (Some []) "quux" = Ok self /\
    @Encoding.getStates unit_bias_tensors echo_networks self 0
    = Raise (AttributeError "nn").
Proof.
  destruct (@ForwardInverse.init unit_bias_tensors 2 6 1 false (Some []) "quux")
    as [self|] eqn:Hinit; [|done].
  exists self. split; [done|].
  apply (@unknown_model_type_fails_at_first_use unit_bias_tensors echo_networks
           2 6 1 false [] "quux" self 0 Hinit).
  rewrite !elem_of_cons, elem_of_nil. by intros [|[|[|[|[|]]]]].
Defined.

(* --------------------------------------------------------------------- *)
(** ** The heads on batches                                               *)
(* --------------------------------------------------------------------- *)

Section Batches.
Context `{Tensors}.
Import ForwardInverse.

Lemma encodeOneHot_inv (action : list Z) (n_dim : Z) (onehot : tensor) :
  encodeOneHot action n_dim = Ok onehot ->
  onehot = one_hot_row n_dim <$> action /\
  forall a, a ∈ action -> ((0 <=? a)%Z && (a <? n_dim)%Z)%bool = true.
Proof.
  unfold encodeOneHot. destruct (forallb _ action) eqn:Hall; [|done].
  intros [= <-]. split; [done|].
  intros a Ha%list_elem_of_In. rewrite forallb_forall in Hall. by apply Hall.
Qed.

Lemma cat1_inv (a b c : tensor) :
  cat1 a b = Ok c -> length a = length b /\ c = zip_with app a b.
Proof.
  unfold cat1. destruct (Nat.eqb_spec (length a) (length b)); [|done].
  by intros [= <-].
Qed.

Lemma tensor_add_inv (a b out : tensor) :
  tensor_add a b = Ok out ->
  length a = length b /\ out = zip_with (zip_with tadd) a b /\
  forall i ra rb, a !! i = Some ra -> b !! i = Some rb -> length ra = length rb.
Proof.
  unfold tensor_add. destruct (Nat.eqb_spec (length a) (length b)); [|done].
  cbn [andb]. destruct (forallb _ (zip a b)) eqn:Hall; [|done].
  intros [= <-]. split; [done|]. split; [done|].
  intros i ra rb Ha Hb. rewrite forallb_forall in Hall.
  apply Nat.eqb_eq. apply (Hall (ra, rb)). apply list_elem_of_In.
  apply list_elem_of_lookup. exists i.
  apply lookup_zip_with_Some. eauto.
Qed.

Lemma has_width_lookup (w : Z) (t : tensor) (i : nat) (row : list num) :
  has_width w t -> t !! i = Some row -> Z.of_nat (length row) = w.
Proof.
  unfold has_width. rewrite Forall_lookup. intros Hw Hrow. by apply (Hw i).
Qed.

Lemma columns_to_ge (k w : Z) (t : tensor) :
  (0 <= w <= k)%Z -> has_width w t -> columns_to k t = t.
Proof.
  intros Hk Hw. unfold columns_to.
  rewrite <-(list_fmap_id t) at 2. apply Forall_fmap_ext.
  unfold has_width in Hw. eapply Forall_impl; [done|].
  intros row Hrow. cbn in *. unfold slice_to.
  destruct (Z.leb_spec 0 k); [|lia]. apply take_ge. lia.
Qed.

End Batches.

Section BatchProperties.
Context `{Tensors}.
Import ForwardInverse.

(** X9: [forwardModel] works row by row.  When it returns on a batch, the
    row of index [i] of the result is what [forwardModel] returns on the
    batch made of the [i]-th state and the [i]-th action alone: no row of
    the prediction depends on another sample of the batch. *)
Theorem forwardModel_row_by_row (sd ad : Z) (r : Q) (cuda : bool)
    (losses : list string) (mt : string) (self : SRLModules)
    (state : tensor) (action : list Z) (out : tensor)
    (i : nat) (row : list num) (a : Z) :
  init sd ad r cuda (Some losses) mt = Ok self ->
  existsb (String.eqb "forward") losses = true ->
  forwardModel self state action = Ok out ->
  state !! i = Some row -> action !! i = Some a ->
  exists o, out !! i = Some o /\ forwardModel self [row] [a] = Ok [o].
Proof.
  intros Hinit Hfwd Hrun Hrow Ha.
  destruct (forwardModel_unfold _ _ _ _ _ _ _ Hinit Hfwd)
    as (L & _ & _ & _ & _ & Hformula).
  rewrite Hformula in Hrun. rewrite Hformula. clear Hformula.
  destruct (encodeOneHot action ad) as [onehot|] eqn:Hoh; cbn [rbind] in Hrun; [|done].
  apply encodeOneHot_inv in Hoh as [-> Hrange].
  destruct (cat1 _ _) as [concat|] eqn:Hcat; cbn [rbind] in Hrun; [|done].
  apply cat1_inv in Hcat as [_ ->].
  destruct (linear L _) as [delta|] eqn:Hlin; cbn [rbind] in Hrun; [|done].
  apply linear_inv in Hlin as [Hw ->].
  apply tensor_add_inv in Hrun as (_ & -> & Hlen).
  set (c := slice_to (sliced_width sd r) row ++ one_hot_row ad a).
  assert (zip_with app (columns_to (sliced_width sd r) state)
            (one_hot_row ad <$> action) !! i = Some c) as Hc.
  { apply lookup_zip_with_Some. exists (slice_to (sliced_width sd r) row),
      (one_hot_row ad a). split; [done|].
    unfold columns_to. by rewrite !list_lookup_fmap, Hrow, Ha. }
  assert ((linear_row L <$> zip_with app (columns_to (sliced_width sd r) state)
             (one_hot_row ad <$> action)) !! i = Some (linear_row L c)) as Hd
    by (by rewrite list_lookup_fmap, Hc).
  exists (zip_with tadd row (linear_row L c)). split.
  - apply lookup_zip_with_Some. eauto.
  - unfold encodeOneHot. cbn [forallb].
    rewrite (Hrange a) by (apply list_elem_of_lookup; eauto).
    cbn [andb fmap list_fmap rbind]. unfold cat1, columns_to.
    cbn [length Nat.eqb fmap list_fmap zip_with rbind]. fold c.
    unfold linear, has_widthb. cbn [forallb].
    rewrite (proj2 (Z.eqb_eq _ _) (has_width_lookup _ _ _ _ Hw Hc)).
    cbn [andb fmap list_fmap rbind]. unfold tensor_add.
    cbn [length Nat.eqb andb zip zip_with forallb fst snd].
    rewrite (proj2 (Nat.eqb_eq _ _) (Hlen i row (linear_row L c) Hrow Hd)).
    done.
Qed.

End BatchProperties.

Lemma forwardModel_row_by_row_witness :
  exists self o,
    @ForwardInverse.init unit_bias_tensors 2 3 1 false (Some ["forward"]) "custom_cnn"
      = Ok self /\
    @ForwardInverse.forwardModel unit_bias_tensors self [[8; 9]%Z] [1%Z] = Ok [o].
Proof.
  destruct (@ForwardInverse.init unit_bias_tensors 2 3 1 false (Some ["forward"])
              "custom_cnn") as [self|] eqn:Hinit; [|done].
  destruct (@forwardModel_row_by_row unit_bias_tensors 2 3 1 false ["forward"]
              "custom_cnn" self [[5; 7]; [8; 9]]%Z [0; 1]%Z [[6; 8]; [9; 10]]%Z
              1 [8; 9]%Z 1%Z Hinit eq_refl)
    as (o & _ & Hrow); [|done|done|].
  - vm_compute in Hinit. by injection Hinit as <-.
  - by exists self, o.
Defined.

Section RatioAboveOne.
Context `{Tensors}.
Import ForwardInverse.

(** A layer rejects a batch whose first row has another width than its
    input. *)
Lemma linear_rejects (l : Linear) (row : list num) (x : tensor) :
  Z.of_nat (length row) <> in_features l ->
  linear l (row :: x) = Raise (RuntimeError "size mismatch").
Proof.
  intros Hne. unfold linear, has_widthb. cbn [forallb].
  by rewrite (proj2 (Z.eqb_neq _ _) Hne).
Qed.



End RatioAboveOne.




